(** * A shallow embedding of the battle engine of [src/main.js]

    The engine is one JavaScript module with free-standing mutable objects
    ([game], [player], [intro], [keys], [bones], [blasters], [stallTimer],
    [napMode]) and functions that mutate them.  Here the objects are the
    fields of one [State] record and every function of the source is a
    function [State -> State] of the same name.

    Numbers.  JavaScript numbers are modelled as exact rationals ([Q]): the
    constants of the source ([1.2], [0.08], ...) are the decimal fractions
    they are written as, and no rounding takes place.  Counters that only
    ever hold integers ([game.frame], [game.phaseIndex], [intro.idx], a
    blaster's [life]) are [Z].

    Host.  [Math.cos] and [Math.sin] are functions of the JavaScript host,
    which the language standard leaves implementation-approximated; they are
    the two methods of the class [MathHost].  The canvas size is read from
    the page, so it is a parameter of the initial state.

    Timers.  [setTimeout] appends a pending timer to the state; the event
    [EvTimer id] runs its callback.  Wall-clock time is not modelled: a
    pending timer may fire between any two handler runs. *)

From Stdlib Require Import QArith Qminmax Qabs Qround ZArith.
From Stdlib Require Import String Ascii List Bool Lia Lqa.
Import ListNotations.

Local Open Scope string_scope.
Local Open Scope Z_scope.
Local Open Scope Q_scope.

(** ** Numbers and strings of the host language *)

(** [a < b] and [a > b] on numbers, as booleans. *)
Definition Qltb (a b : Q) : bool := negb (Qle_bool b a).
Definition Qgtb (a b : Q) : bool := Qltb b a.
Definition Qleb (a b : Q) : bool := Qle_bool a b.
Definition Qgeb (a b : Q) : bool := Qle_bool b a.

(** [v || 0] on a number: [0] when [v] is falsy, i.e. zero. *)
Definition or_zero (v : Q) : Q := if Qeq_bool v 0 then 0 else v.

(** [Math.sign]. *)
Definition Math_sign (v : Q) : Q :=
  if Qltb 0 v then 1 else if Qltb v 0 then -1 else 0.

(** [Math.PI]: the double nearest to pi, which is this dyadic rational. *)
Definition Math_PI : Q := 884279719003555 # 281474976710656.

(** [Math.cos] and [Math.sin], left to the host. *)
Class MathHost := {
  Math_cos : Q -> Q;
  Math_sin : Q -> Q
}.

(** [String.prototype.toLowerCase], on the ASCII letters. *)
Definition lower_ascii (c : ascii) : ascii :=
  let n := nat_of_ascii c in
  if (Nat.leb 65 n && Nat.leb n 90)%bool then ascii_of_nat (n + 32) else c.

Fixpoint toLowerCase (s : string) : string :=
  match s with
  | EmptyString => EmptyString
  | String c r => String (lower_ascii c) (toLowerCase r)
  end.

(** ** Data model *)

(** The [game] object. *)
Record Game := mkGame {
  game_width : Q;
  game_height : Q;
  game_frame : Z;
  game_running : bool;
  game_phaseIndex : Z;
  game_subphaseTime : Q;
  game_gravity : Q;
  game_soulColor : string;
  game_inMenu : bool;
  game_specialStall : bool;
  game_finished : bool;
  game_introActive : bool
}.

(** The [player] object (the soul). *)
Record Player := mkPlayer {
  player_x : Q;
  player_y : Q;
  player_vx : Q;
  player_vy : Q;
  player_width : Q;
  player_height : Q;
  player_speed : Q;
  player_jump : Q;
  player_onGround : bool;
  player_moveThisFrame : bool;
  player_hp : Q;
  player_hpMax : Q;
  player_kr : Q
}.

(** An element of [bones]: [{x, y, w, h, color, vx, vy}]. *)
Record Bone := mkBone {
  bone_x : Q;
  bone_y : Q;
  bone_w : Q;
  bone_h : Q;
  bone_color : string;
  bone_vx : Q;
  bone_vy : Q
}.

(** An element of [blasters]: [{x, y, angle, charge, fire, life}]. *)
Record Blaster := mkBlaster {
  blaster_x : Q;
  blaster_y : Q;
  blaster_angle : Q;
  blaster_charge : Z;
  blaster_fire : Z;
  blaster_life : Z
}.

(** The closures the source hands to [setTimeout]. *)
Inductive Callback :=
| CbAdvanceIntro
| CbResetForMenu
| CbSpawnBone (x y w h : Q) (color : string) (vx vy : Q)
| CbSpawnBlaster (x y angle : Q)
| CbSpawnBlasters (x1 y1 angle1 x2 y2 angle2 : Q)
| CbSetVelocity (vx vy : Q)
| CbFlipGravity
| CbGauntletVolley.

Record Timer := mkTimer {
  timer_id : nat;
  timer_delay : Q;
  timer_callback : Callback
}.

(** The whole module state. [dialogue] is [dialogueEl.textContent]; [hud_hp]
    and [hud_kr] are the numbers [updateUI] writes to the HUD. *)
Record State := mkState {
  game : Game;
  player : Player;
  keys : list string;
  intro_idx : Z;
  intro_timer : option nat;
  bones : list Bone;
  blasters : list Blaster;
  stallTimer : Q;
  napMode : bool;
  dialogue : string;
  hud_hp : Z;
  hud_kr : Z;
  timers : list Timer;
  nextTimerId : nat
}.

(** *** Field updates *)

Definition set_frame (v : Z) (g : Game) : Game :=
  mkGame (game_width g) (game_height g) v (game_running g) (game_phaseIndex g)
    (game_subphaseTime g) (game_gravity g) (game_soulColor g) (game_inMenu g)
    (game_specialStall g) (game_finished g) (game_introActive g).

Definition set_running (v : bool) (g : Game) : Game :=
  mkGame (game_width g) (game_height g) (game_frame g) v (game_phaseIndex g)
    (game_subphaseTime g) (game_gravity g) (game_soulColor g) (game_inMenu g)
    (game_specialStall g) (game_finished g) (game_introActive g).

Definition set_phaseIndex (v : Z) (g : Game) : Game :=
  mkGame (game_width g) (game_height g) (game_frame g) (game_running g) v
    (game_subphaseTime g) (game_gravity g) (game_soulColor g) (game_inMenu g)
    (game_specialStall g) (game_finished g) (game_introActive g).

Definition set_subphaseTime (v : Q) (g : Game) : Game :=
  mkGame (game_width g) (game_height g) (game_frame g) (game_running g)
    (game_phaseIndex g) v (game_gravity g) (game_soulColor g) (game_inMenu g)
    (game_specialStall g) (game_finished g) (game_introActive g).

Definition set_gravity (v : Q) (g : Game) : Game :=
  mkGame (game_width g) (game_height g) (game_frame g) (game_running g)
    (game_phaseIndex g) (game_subphaseTime g) v (game_soulColor g) (game_inMenu g)
    (game_specialStall g) (game_finished g) (game_introActive g).

Definition set_soulColor (v : string) (g : Game) : Game :=
  mkGame (game_width g) (game_height g) (game_frame g) (game_running g)
    (game_phaseIndex g) (game_subphaseTime g) (game_gravity g) v (game_inMenu g)
    (game_specialStall g) (game_finished g) (game_introActive g).

Definition set_inMenu (v : bool) (g : Game) : Game :=
  mkGame (game_width g) (game_height g) (game_frame g) (game_running g)
    (game_phaseIndex g) (game_subphaseTime g) (game_gravity g) (game_soulColor g) v
    (game_specialStall g) (game_finished g) (game_introActive g).

Definition set_specialStall (v : bool) (g : Game) : Game :=
  mkGame (game_width g) (game_height g) (game_frame g) (game_running g)
    (game_phaseIndex g) (game_subphaseTime g) (game_gravity g) (game_soulColor g)
    (game_inMenu g) v (game_finished g) (game_introActive g).

Definition set_finished (v : bool) (g : Game) : Game :=
  mkGame (game_width g) (game_height g) (game_frame g) (game_running g)
    (game_phaseIndex g) (game_subphaseTime g) (game_gravity g) (game_soulColor g)
    (game_inMenu g) (game_specialStall g) v (game_introActive g).

Definition set_introActive (v : bool) (g : Game) : Game :=
  mkGame (game_width g) (game_height g) (game_frame g) (game_running g)
    (game_phaseIndex g) (game_subphaseTime g) (game_gravity g) (game_soulColor g)
    (game_inMenu g) (game_specialStall g) (game_finished g) v.

Definition set_x (v : Q) (p : Player) : Player :=
  mkPlayer v (player_y p) (player_vx p) (player_vy p) (player_width p)
    (player_height p) (player_speed p) (player_jump p) (player_onGround p)
    (player_moveThisFrame p) (player_hp p) (player_hpMax p) (player_kr p).

Definition set_y (v : Q) (p : Player) : Player :=
  mkPlayer (player_x p) v (player_vx p) (player_vy p) (player_width p)
    (player_height p) (player_speed p) (player_jump p) (player_onGround p)
    (player_moveThisFrame p) (player_hp p) (player_hpMax p) (player_kr p).

Definition set_vx (v : Q) (p : Player) : Player :=
  mkPlayer (player_x p) (player_y p) v (player_vy p) (player_width p)
    (player_height p) (player_speed p) (player_jump p) (player_onGround p)
    (player_moveThisFrame p) (player_hp p) (player_hpMax p) (player_kr p).

Definition set_vy (v : Q) (p : Player) : Player :=
  mkPlayer (player_x p) (player_y p) (player_vx p) v (player_width p)
    (player_height p) (player_speed p) (player_jump p) (player_onGround p)
    (player_moveThisFrame p) (player_hp p) (player_hpMax p) (player_kr p).

Definition set_onGround (v : bool) (p : Player) : Player :=
  mkPlayer (player_x p) (player_y p) (player_vx p) (player_vy p) (player_width p)
    (player_height p) (player_speed p) (player_jump p) v
    (player_moveThisFrame p) (player_hp p) (player_hpMax p) (player_kr p).

Definition set_moveThisFrame (v : bool) (p : Player) : Player :=
  mkPlayer (player_x p) (player_y p) (player_vx p) (player_vy p) (player_width p)
    (player_height p) (player_speed p) (player_jump p) (player_onGround p)
    v (player_hp p) (player_hpMax p) (player_kr p).

Definition set_hp (v : Q) (p : Player) : Player :=
  mkPlayer (player_x p) (player_y p) (player_vx p) (player_vy p) (player_width p)
    (player_height p) (player_speed p) (player_jump p) (player_onGround p)
    (player_moveThisFrame p) v (player_hpMax p) (player_kr p).

Definition set_kr (v : Q) (p : Player) : Player :=
  mkPlayer (player_x p) (player_y p) (player_vx p) (player_vy p) (player_width p)
    (player_height p) (player_speed p) (player_jump p) (player_onGround p)
    (player_moveThisFrame p) (player_hp p) (player_hpMax p) v.

Definition with_game (f : Game -> Game) (s : State) : State :=
  mkState (f (game s)) (player s) (keys s) (intro_idx s) (intro_timer s)
    (bones s) (blasters s) (stallTimer s) (napMode s) (dialogue s)
    (hud_hp s) (hud_kr s) (timers s) (nextTimerId s).

Definition with_player (f : Player -> Player) (s : State) : State :=
  mkState (game s) (f (player s)) (keys s) (intro_idx s) (intro_timer s)
    (bones s) (blasters s) (stallTimer s) (napMode s) (dialogue s)
    (hud_hp s) (hud_kr s) (timers s) (nextTimerId s).

Definition set_keys (v : list string) (s : State) : State :=
  mkState (game s) (player s) v (intro_idx s) (intro_timer s)
    (bones s) (blasters s) (stallTimer s) (napMode s) (dialogue s)
    (hud_hp s) (hud_kr s) (timers s) (nextTimerId s).

Definition set_intro_idx (v : Z) (s : State) : State :=
  mkState (game s) (player s) (keys s) v (intro_timer s)
    (bones s) (blasters s) (stallTimer s) (napMode s) (dialogue s)
    (hud_hp s) (hud_kr s) (timers s) (nextTimerId s).

Definition set_intro_timer (v : option nat) (s : State) : State :=
  mkState (game s) (player s) (keys s) (intro_idx s) v
    (bones s) (blasters s) (stallTimer s) (napMode s) (dialogue s)
    (hud_hp s) (hud_kr s) (timers s) (nextTimerId s).

Definition set_bones (v : list Bone) (s : State) : State :=
  mkState (game s) (player s) (keys s) (intro_idx s) (intro_timer s)
    v (blasters s) (stallTimer s) (napMode s) (dialogue s)
    (hud_hp s) (hud_kr s) (timers s) (nextTimerId s).

Definition set_blasters (v : list Blaster) (s : State) : State :=
  mkState (game s) (player s) (keys s) (intro_idx s) (intro_timer s)
    (bones s) v (stallTimer s) (napMode s) (dialogue s)
    (hud_hp s) (hud_kr s) (timers s) (nextTimerId s).

Definition set_stallTimer (v : Q) (s : State) : State :=
  mkState (game s) (player s) (keys s) (intro_idx s) (intro_timer s)
    (bones s) (blasters s) v (napMode s) (dialogue s)
    (hud_hp s) (hud_kr s) (timers s) (nextTimerId s).

Definition set_napMode (v : bool) (s : State) : State :=
  mkState (game s) (player s) (keys s) (intro_idx s) (intro_timer s)
    (bones s) (blasters s) (stallTimer s) v (dialogue s)
    (hud_hp s) (hud_kr s) (timers s) (nextTimerId s).

Definition set_hud (h k : Z) (s : State) : State :=
  mkState (game s) (player s) (keys s) (intro_idx s) (intro_timer s)
    (bones s) (blasters s) (stallTimer s) (napMode s) (dialogue s)
    h k (timers s) (nextTimerId s).

Definition set_timers (v : list Timer) (n : nat) (s : State) : State :=
  mkState (game s) (player s) (keys s) (intro_idx s) (intro_timer s)
    (bones s) (blasters s) (stallTimer s) (napMode s) (dialogue s)
    (hud_hp s) (hud_kr s) v n.

(** [for (const a of l) body(a)], the body acting on the state. *)
Definition for_each {A : Type} (l : list A) (body : A -> State -> State)
  (s : State) : State :=
  fold_left (fun st a => body a st) l s.

(** ** Small helpers of the source (lines 76-103) *)

Definition setDialogue (text : string) (s : State) : State :=
  mkState (game s) (player s) (keys s) (intro_idx s) (intro_timer s)
    (bones s) (blasters s) (stallTimer s) (napMode s) text
    (hud_hp s) (hud_kr s) (timers s) (nextTimerId s).

Definition updateUI (s : State) : State :=
  set_hud (Z.max 0 (Qfloor (player_hp (player s))))
          (Qfloor (player_kr (player s))) s.

Definition rectsOverlap (ax ay aw ah bx by_ bw bh : Q) : bool :=
  (Qltb ax (bx + bw) && Qgtb (ax + aw) bx &&
   Qltb ay (by_ + bh) && Qgtb (ay + ah) by_)%bool.

Definition spawnBone (x y w h : Q) (color : string) (vx vy : Q)
  (s : State) : State :=
  set_bones (bones s ++ [mkBone x y w h color vx vy]) s.

Definition spawnBlaster (x y angle : Q) (s : State) : State :=
  set_blasters (blasters s ++ [mkBlaster x y angle 30 20 70]) s.

Definition resetForMenu (s : State) : State := with_game (set_inMenu true) s.

Definition leaveMenu (s : State) : State := with_game (set_inMenu false) s.

(** ** Damage and corruption (lines 105-120) *)

Definition applyKR (delta : Q) (s : State) : State :=
  if Qleb (player_kr (player s)) 0 then s
  else
    let drain := Qmin (player_kr (player s)) (0.08 * delta) in
    let s := with_player (fun p => set_hp (player_hp p - drain) p) s in
    with_player (fun p => set_kr (Qmax 0 (player_kr p - 0.02 * delta)) p) s.

Definition hurt (amount addKR : Q) (s : State) : State :=
  let s := with_player (fun p => set_hp (player_hp p - amount) p) s in
  let s := with_player (fun p => set_kr (Qmin 60 (player_kr p + addKR)) p) s in
  if Qleb (player_hp (player s)) 0
  then setDialogue "you died. refresh to retry." (with_game (set_running false) s)
  else s.

(** ** Timers *)

(** [setTimeout(cb, ms)]: the new timer gets the id [nextTimerId s]. *)
Definition setTimeout (cb : Callback) (ms : Q) (s : State) : State :=
  set_timers (timers s ++ [mkTimer (nextTimerId s) ms cb]) (S (nextTimerId s)) s.

Definition clearTimeout (t : option nat) (s : State) : State :=
  match t with
  | None => s
  | Some id =>
      set_timers (filter (fun tm => negb (Nat.eqb (timer_id tm) id)) (timers s))
                 (nextTimerId s) s
  end.

(** ** Intro dialogue (lines 56-70, 122-142) and cold open (209-219) *)

Definition intro_lines : list string :=
  [ "hey.";
    "you look tired. me too.";
    "still moving forward, huh.";
    "welp. guess we do this the hard way.";
    "just a heads-up... blue means don't move.";
    "try to keep up.";
    "ready?" ].

Definition intro_perLineMs : Q := 1400.

(** [for (let i = 0; i < n; i++)]: the values of [i]. *)
Definition range (n : nat) : list Z := map Z.of_nat (seq 0 n).

Definition startColdOpen (s : State) : State :=
  let s := for_each (range 8) (fun i =>
             spawnBone (40 + inject_Z i * 70) 420 50 10 "white" 0 (-2.5)) s in
  let s := with_game (set_phaseIndex 0%Z) s in
  let s := with_game (set_subphaseTime 0) s in
  let s := with_game (set_inMenu false) s in
  setTimeout CbResetForMenu 1400 s.

Definition advanceIntro (s : State) : State :=
  if negb (game_introActive (game s)) then s
  else
    let s := clearTimeout (intro_timer s) s in
    let s := set_intro_idx (intro_idx s + 1)%Z s in
    if (intro_idx s <? Z.of_nat (length intro_lines))%Z then
      let s := setDialogue (nth (Z.to_nat (intro_idx s)) intro_lines "") s in
      set_intro_timer (Some (nextTimerId s))
        (setTimeout CbAdvanceIntro intro_perLineMs s)
    else
      let s := with_game (set_introActive false) s in
      let s := setDialogue "..." s in
      startColdOpen s.

Definition startIntro (s : State) : State :=
  let s := with_game (set_introActive true) s in
  let s := set_intro_idx 0%Z s in
  let s := setDialogue (nth 0 intro_lines "") s in
  set_intro_timer (Some (nextTimerId s))
    (setTimeout CbAdvanceIntro intro_perLineMs s).

Definition startBattle (s : State) : State := startIntro s.

(** ** Keyboard (lines 144-162) *)

Definition keys_has (k : string) (s : State) : bool :=
  existsb (String.eqb k) (keys s).

Definition keys_add (k : string) (s : State) : State :=
  if keys_has k s then s else set_keys (keys s ++ [k]) s.

Definition keys_delete (k : string) (s : State) : State :=
  set_keys (filter (fun k' => negb (String.eqb k k')) (keys s)) s.

(** [handleKeysDown(e)] with [e.key = key] and [e.repeat = repeat].  The
    music toggle on [m] touches the audio element only and is left out. *)
Definition handleKeysDown (key : string) (repeat : bool) (s : State) : State :=
  if repeat then s
  else if (game_introActive (game s) &&
           (String.eqb key "z" || String.eqb key "Z" || String.eqb key "Enter"))%bool
  then advanceIntro s
  else
    let s := keys_add (toLowerCase key) s in
    if (String.eqb key "c" || String.eqb key "C")%bool then
      with_game (fun g =>
        set_soulColor (if String.eqb (game_soulColor g) "blue" then "red" else "blue") g) s
    else s.

Definition handleKeysUp (key : string) (s : State) : State :=
  keys_delete (toLowerCase key) s.

Section Engine.

Context {host : MathHost}.

(** ** Attack patterns (lines 259-365) *)

Definition patternSweepAndBlaster (s : State) : State :=
  let s := setDialogue "keep your feet still when they're blue." s in
  let s := for_each [360; 330; 300; 270; 240] (fun y st =>
             let color := if Qeq_bool y 300 then "blue" else "white" in
             let st := spawnBone (-100) y 200 8 color 4 0 st in
             spawnBone 640 (y + 15) 200 8 "white" (-4) 0 st) s in
  setTimeout (CbSpawnBlaster 560 80 (Math_PI * 0.75)) 600 s.

Definition patternStairsAndSwipe (s : State) : State :=
  let s := setDialogue "jump. then wait. then jump." s in
  let s := for_each (range 6) (fun i =>
             spawnBone (120 + inject_Z i * 60) (420 - inject_Z i * 40) 60 10
               "white" 0 0) s in
  let s := for_each (range 6) (fun i =>
             setTimeout (CbSpawnBone (-120) 430 240 8 "white" 9 0)
               (200 + 120 * inject_Z i)) s in
  let s := setTimeout (CbSpawnBlaster 80 80 (Math_PI / 4)) 700 s in
  setTimeout (CbSpawnBlaster 560 140 (Math_PI * 0.7)) 900 s.

Definition patternBlueWhiteColumns (s : State) : State :=
  let s := setDialogue "move a little. then don't." s in
  let s := for_each (range 10) (fun i =>
             let color := if Z.eqb (i mod 2) 0 then "white" else "blue" in
             spawnBone (120 + inject_Z i * 36) 210 20 180 color 0 0) s in
  let s := setTimeout (CbSpawnBlaster 40 240 0) 500 s in
  let s := setTimeout (CbSpawnBlaster 600 240 Math_PI) 680 s in
  setTimeout (CbSpawnBlaster 320 (-20) (Math_PI / 2)) 860 s.

Definition patternPendulum (s : State) : State :=
  let s := setDialogue "watch the swing." s in
  for_each (range 5) (fun i =>
    let y := 240 + Math_sin (inject_Z i) * 120 in
    spawnBone (320 - 6) y 12 12 "white" 0 0) s.

Definition patternTelekinesisDrops (s : State) : State :=
  let s := setDialogue "buffer your landings." s in
  let s := with_player (fun p => set_vy (-8) (set_vx 6 p)) s in
  let s := setTimeout (CbSetVelocity (-8) (-4)) 300 s in
  let s := setTimeout (CbSetVelocity 0 12) 650 s in
  let s := for_each (range 5) (fun i =>
             spawnBone (200 + inject_Z i * 40) 440 24 8 "white" 0 0) s in
  setTimeout (CbSpawnBlasters 220 420 (- Math_PI / 2) 420 420 (- Math_PI / 2)) 700 s.

Definition patternMazeRun (s : State) : State :=
  let s := setDialogue "small hops. no panic." s in
  let s := for_each (range 8) (fun i st =>
             let st := spawnBone (80 + inject_Z i * 64) 440 40 8 "white" 0 0 st in
             spawnBone (80 + inject_Z i * 64) 220 40 8 "blue" 0 0 st) s in
  setTimeout (CbSpawnBlaster (-20) 280 0) 500 s.

Definition patternSawtoothFlip (s : State) : State :=
  let s := setDialogue "up is down." s in
  let s := for_each (range 6) (fun i =>
             spawnBone (60 + inject_Z i * 90) (400 - inject_Z (i mod 2) * 120) 80 10
               (if Z.eqb (i mod 2) 0 then "white" else "blue") 0 0) s in
  let s := setTimeout CbFlipGravity 600 s in
  let s := setTimeout CbFlipGravity 1200 s in
  setTimeout (CbSpawnBlaster 320 480 (- Math_PI / 2)) 900 s.

Definition patternGauntlet (s : State) : State :=
  let s := setDialogue "route early." s in
  let s := for_each (range 10) (fun i st =>
             let odd := negb (Z.eqb (i mod 2) 0) in
             let st := setTimeout
                         (CbSpawnBone (-120) (260 + (if odd then 30 else -30)) 200 8
                            "white" 6 0)
                         (inject_Z i * 120) st in
             setTimeout
               (CbSpawnBone 640 (260 + (if odd then -60 else 60)) 200 8
                  "white" (-6) 0)
               (inject_Z i * 120 + 60) st) s in
  setTimeout CbGauntletVolley 300 s.

(** The body of the closure [patternGauntlet] schedules at 300ms. *)
Definition gauntletVolley (s : State) : State :=
  let s := spawnBlaster 320 0 (Math_PI / 2) s in
  let s := setTimeout (CbSpawnBlaster 320 480 (- Math_PI / 2)) 200 s in
  let s := setTimeout (CbSpawnBlaster 320 0 (Math_PI / 2)) 400 s in
  setTimeout (CbSpawnBlasters 160 0 (Math_PI / 2) 480 480 (- Math_PI / 2)) 600 s.

Definition specialAttackStallSetup (s : State) : State :=
  let s := setDialogue "my special attack." s in
  let s := spawnBone 220 220 200 10 "white" 0 0 s in
  let s := spawnBone 220 350 200 10 "white" 0 0 s in
  let s := spawnBone 220 220 10 140 "white" 0 0 s in
  spawnBone 410 220 10 140 "white" 0 0 s.

(** ** Phase sequencing (lines 226-257) and the menu (171-207) *)

Definition nextAttack (s : State) : State :=
  let s := set_bones [] s in
  let s := set_blasters [] s in
  let s := with_player (fun p => set_moveThisFrame false (set_vy 0 (set_vx 0 p))) s in
  let s := with_game (set_subphaseTime 0) s in
  let p := game_phaseIndex (game s) in
  let s := with_game (set_phaseIndex (p + 1)%Z) s in
  if game_specialStall (game s) then specialAttackStallSetup s
  else
    match p with
    | 0%Z => patternSweepAndBlaster s
    | 1%Z => patternStairsAndSwipe s
    | 2%Z => patternBlueWhiteColumns s
    | 3%Z => patternPendulum s
    | 4%Z => patternTelekinesisDrops s
    | 5%Z => patternMazeRun s
    | 6%Z => patternSawtoothFlip s
    | 7%Z => patternGauntlet s
    | _ => specialAttackStallSetup (with_game (set_specialStall true) s)
    end.

(** The guard of the stall finisher in [onMenuAction] (line 174). *)
Definition finisherReady (action : string) (s : State) : bool :=
  (game_specialStall (game s) && napMode s && Qgtb (stallTimer s) 8000 &&
   String.eqb action "FIGHT" && negb (game_finished (game s)))%bool.

Definition onMenuAction (action : string) (s : State) : State :=
  if negb (game_inMenu (game s)) then s
  else if finisherReady action s then
    let s := leaveMenu s in
    let s := setDialogue "you swing while he sleeps. it's over." s in
    let s := with_game (set_finished true) s in
    let s := with_game (set_running false) s in
    updateUI s
  else if String.eqb action "FIGHT" then
    nextAttack (leaveMenu s)
  else if String.eqb action "ACT" then
    nextAttack (leaveMenu (setDialogue "he doesn't seem interested." s))
  else if String.eqb action "ITEM" then
    let heal := 18 in
    let s := with_player (fun p =>
               set_hp (Qmin (player_hpMax p) (player_hp p + heal)) p) s in
    nextAttack (leaveMenu (setDialogue "you use a healing item." s))
  else if String.eqb action "MERCY" then
    nextAttack (leaveMenu (setDialogue "not an option." s))
  else s.

(** ** Stall idle detection (lines 367-386) *)

Definition stallMoving (s : State) : bool :=
  (keys_has "arrowleft" s || keys_has "arrowright" s || keys_has "arrowup" s ||
   keys_has "arrowdown" s || keys_has "a" s || keys_has "d" s ||
   keys_has "w" s || keys_has "s" s)%bool.

Definition tryAllowStallEscape (delta : Q) (s : State) : State :=
  if negb (game_specialStall (game s)) then s
  else
    let s := if negb (stallMoving s) then set_stallTimer (stallTimer s + delta) s
             else set_stallTimer 0 s in
    let s := if (negb (napMode s) && Qgtb (stallTimer s) 3000)%bool
             then setDialogue "... zzz" (set_napMode true s) else s in
    if (napMode s && Qgtb (stallTimer s) 6000)%bool
    then setDialogue "you feel the guard drop."
           (spawnBone 220 220 200 10 "blue" 0 0 s)
    else s.

(** ** The tick (lines 388-512) *)

(** Menu timing (lines 399-403). *)
Definition menuTiming (s : State) : State :=
  if (negb (game_inMenu (game s)) && Qgtb (game_subphaseTime (game s)) 1800 &&
      negb (game_specialStall (game s)))%bool
  then resetForMenu s else s.

Definition key_left (s : State) : bool :=
  (keys_has "arrowleft" s || keys_has "a" s)%bool.
Definition key_right (s : State) : bool :=
  (keys_has "arrowright" s || keys_has "d" s)%bool.
Definition key_up (s : State) : bool :=
  (keys_has "arrowup" s || keys_has "w" s || keys_has " " s)%bool.
Definition key_down (s : State) : bool :=
  (keys_has "arrowdown" s || keys_has "s" s)%bool.

Definition markMoved (p : Player) : Player := set_moveThisFrame true p.

(** Red soul: free movement (lines 412-417). *)
Definition moveRed (left right up down : bool) (p : Player) : Player :=
  let p := if left then markMoved (set_x (player_x p - player_speed p) p) else p in
  let p := if right then markMoved (set_x (player_x p + player_speed p) p) else p in
  let p := if up then markMoved (set_y (player_y p - player_speed p) p) else p in
  if down then markMoved (set_y (player_y p + player_speed p) p) else p.

(** Blue soul: platforming with gravity (lines 419-442). *)
Definition moveBlue (gravity : Q) (left right up : bool) (p : Player) : Player :=
  let p := if left then markMoved (set_vx (- player_speed p) p)
           else if right then markMoved (set_vx (player_speed p) p)
           else set_vx 0 p in
  let p := if (up && player_onGround p)%bool
           then markMoved (set_onGround false
                  (set_vy (- player_jump p * Math_sign gravity) p))
           else p in
  let p := set_vy (player_vy p + gravity * 0.4) p in
  let p := set_x (player_x p + player_vx p) p in
  let p := set_y (player_y p + player_vy p) p in
  let floorY := if Qgtb gravity 0 then 460 else 20 in
  if ((Qgtb gravity 0 && Qgeb (player_y p + player_height p) floorY) ||
      (Qltb gravity 0 && Qleb (player_y p) floorY))%bool
  then
    let p := set_y (if Qgtb gravity 0 then floorY - player_height p else floorY) p in
    let p := set_vy 0 p in
    set_onGround true p
  else set_onGround false p.

(** Player input and physics (lines 405-443). *)
Definition movePlayer (s : State) : State :=
  let left := key_left s in
  let right := key_right s in
  let up := key_up s in
  let s := with_player (set_moveThisFrame false) s in
  if String.eqb (game_soulColor (game s)) "red"
  then with_player (moveRed left right up (key_down s)) s
  else with_player (moveBlue (game_gravity (game s)) left right up) s.

(** Clamp to stage (lines 445-447). *)
Definition clampToStage (s : State) : State :=
  let g := game s in
  let s := with_player (fun p =>
             set_x (Qmax 20 (Qmin (game_width g - 20 - player_width p) (player_x p))) p) s in
  with_player (fun p =>
    set_y (Qmax 20 (Qmin (game_height g - 20 - player_height p) (player_y p))) p) s.

(** Bones advance by their velocity and off-screen bones are culled
    (lines 449-459).  The source culls with a backward loop that splices
    each off-screen element out, which keeps the others in order. *)
Definition advanceBone (b : Bone) : Bone :=
  mkBone (bone_x b + or_zero (bone_vx b)) (bone_y b + or_zero (bone_vy b))
    (bone_w b) (bone_h b) (bone_color b) (bone_vx b) (bone_vy b).

Definition boneOffscreen (g : Game) (b : Bone) : bool :=
  (Qltb (bone_x b + bone_w b) (-200) || Qgtb (bone_x b) (game_width g + 200) ||
   Qgtb (bone_y b) (game_height g + 200) || Qltb (bone_y b + bone_h b) (-200))%bool.

Definition updateBones (s : State) : State :=
  let s := set_bones (map advanceBone (bones s)) s in
  set_bones (filter (fun b => negb (boneOffscreen (game s) b)) (bones s)) s.

(** Blasters age by one and the expired ones are removed (lines 461-467). *)
Definition ageBlaster (g : Blaster) : Blaster :=
  mkBlaster (blaster_x g) (blaster_y g) (blaster_angle g) (blaster_charge g)
    (blaster_fire g) (blaster_life g - 1).

Definition updateBlasters (s : State) : State :=
  let s := set_blasters (map ageBlaster (blasters s)) s in
  set_blasters (filter (fun g => negb (blaster_life g <=? 0)%Z) (blasters s)) s.

(** Collisions with bones (lines 469-478). *)
Definition boneTouches (p : Player) (b : Bone) : bool :=
  rectsOverlap (player_x p) (player_y p) (player_width p) (player_height p)
    (bone_x b) (bone_y b) (bone_w b) (bone_h b).

Definition collideBone (b : Bone) (s : State) : State :=
  if boneTouches (player s) b then
    if String.eqb (bone_color b) "white" then hurt 1.2 5 s
    else if String.eqb (bone_color b) "blue" then
      if player_moveThisFrame (player s) then hurt 1.2 5 s else s
    else s
  else s.

Definition collideBones (s : State) : State :=
  for_each (bones s) collideBone s.

(** Collisions with blaster beams (lines 480-497). *)
Definition beamLength : Q := 800.
Definition beamWidth : Q := 22.

Definition beamProj (p : Player) (g : Blaster) : Q :=
  let px := player_x p + player_width p / 2 in
  let py := player_y p + player_height p / 2 in
  let dx := Math_cos (blaster_angle g) in
  let dy := Math_sin (blaster_angle g) in
  let ox := px - blaster_x g in
  let oy := py - blaster_y g in
  ox * dx + oy * dy.

Definition beamPerp (p : Player) (g : Blaster) : Q :=
  let px := player_x p + player_width p / 2 in
  let py := player_y p + player_height p / 2 in
  let dx := Math_cos (blaster_angle g) in
  let dy := Math_sin (blaster_angle g) in
  let ox := px - blaster_x g in
  let oy := py - blaster_y g in
  Qabs (- oy * dx + ox * dy).

Definition collideBlaster (g : Blaster) (s : State) : State :=
  let beamActive := (blaster_life g <? 40)%Z in
  if negb beamActive then s
  else
    let proj := beamProj (player s) g in
    let perp := beamPerp (player s) g in
    if (Qgtb proj 0 && Qltb proj beamLength && Qltb perp beamWidth)%bool
    then hurt 0.9 6 s else s.

Definition collideBlasters (s : State) : State :=
  for_each (blasters s) collideBlaster s.

(** The finishing strike is offered (lines 505-509). *)
Definition offerFinisher (s : State) : State :=
  if (game_specialStall (game s) && napMode s && Qgtb (stallTimer s) 8000 &&
      negb (game_inMenu (game s)) && negb (game_finished (game s)))%bool
  then setDialogue "... now's your chance." (resetForMenu s) else s.

(** Everything [update] does after the intro check. *)
Definition simulate (deltaMs : Q) (s : State) : State :=
  let s := menuTiming s in
  let s := movePlayer s in
  let s := clampToStage s in
  let s := updateBones s in
  let s := updateBlasters s in
  let s := collideBones s in
  let s := collideBlasters s in
  let s := applyKR deltaMs s in
  let s := tryAllowStallEscape deltaMs s in
  let s := offerFinisher s in
  updateUI s.

Definition update (deltaMs : Q) (s : State) : State :=
  if negb (game_running (game s)) then s
  else
    let s := with_game (fun g => set_frame (game_frame g + 1)%Z g) s in
    let s := with_game (fun g => set_subphaseTime (game_subphaseTime g + deltaMs) g) s in
    if game_introActive (game s) then updateUI s
    else simulate deltaMs s.

(** ** Events *)

Definition runCallback (cb : Callback) (s : State) : State :=
  match cb with
  | CbAdvanceIntro => advanceIntro s
  | CbResetForMenu => resetForMenu s
  | CbSpawnBone x y w h color vx vy => spawnBone x y w h color vx vy s
  | CbSpawnBlaster x y angle => spawnBlaster x y angle s
  | CbSpawnBlasters x1 y1 a1 x2 y2 a2 =>
      spawnBlaster x2 y2 a2 (spawnBlaster x1 y1 a1 s)
  | CbSetVelocity vx vy => with_player (fun p => set_vy vy (set_vx vx p)) s
  | CbFlipGravity => with_game (fun g => set_gravity (- game_gravity g) g) s
  | CbGauntletVolley => gauntletVolley s
  end.

(** A pending timer fires: it leaves the pending list and its callback runs. *)
Definition fireTimer (id : nat) (s : State) : State :=
  match find (fun tm => Nat.eqb (timer_id tm) id) (timers s) with
  | None => s
  | Some tm => runCallback (timer_callback tm) (clearTimeout (Some id) s)
  end.

(** What the page can deliver to the engine: an animation frame calling
    [update], a key event, a click on a menu button, a timer. *)
Inductive Event :=
| EvUpdate (deltaMs : Q)
| EvKeyDown (key : string) (repeat : bool)
| EvKeyUp (key : string)
| EvClick (action : string)
| EvTimer (id : nat).

Definition step (s : State) (e : Event) : State :=
  match e with
  | EvUpdate deltaMs => update deltaMs s
  | EvKeyDown key repeat => handleKeysDown key repeat s
  | EvKeyUp key => handleKeysUp key s
  | EvClick action => onMenuAction action s
  | EvTimer id => fireTimer id s
  end.

Definition run (evs : list Event) (s : State) : State := fold_left step evs s.

End Engine.

(** ** Start-up (lines 22-52, 566-572) *)

Definition initial (canvas_width canvas_height : Q) : State :=
  mkState
    (mkGame canvas_width canvas_height 0 true 0 0 0.7 "blue" false false false false)
    (mkPlayer 320 360 0 0 12 12 3.0 9.0 false false 92 92 0)
    [] 0%Z None [] [] 0 false "" 0%Z 0%Z [] 0%nat.

Definition boot (canvas_width canvas_height : Q) : State :=
  startBattle (updateUI (initial canvas_width canvas_height)).

(** ** Vocabulary of the specification *)

(** The invariant of the data model: corruption within [[0, 60]] and hp at
    most hpMax. *)
Definition vitals_ok (s : State) : Prop :=
  0 <= player_kr (player s) /\ player_kr (player s) <= 60 /\
  player_hp (player s) <= player_hpMax (player s).

(** A bone damages the soul this tick: it overlaps the soul's rectangle and
    is Neutral (white), or Guarded (blue) while the soul moved. *)
Definition boneDamages (p : Player) (b : Bone) : bool :=
  (boneTouches p b &&
   (String.eqb (bone_color b) "white" ||
    (String.eqb (bone_color b) "blue" && player_moveThisFrame p)))%bool.

(** How many bones damage the soul in the state [s]. *)
Definition boneHits (s : State) : nat :=
  length (filter (boneDamages (player s)) (bones s)).

(** An update event with a non-negative elapsed time; other events are
    unconstrained. *)
Definition forwardInTime (e : Event) : Prop :=
  match e with
  | EvUpdate deltaMs => 0 <= deltaMs
  | _ => True
  end.

(** The part of the state [hurt] and [applyKR] act on. *)
Definition vitals (s : State) : Q * Q * Q :=
  (player_hp (player s), player_hpMax (player s), player_kr (player s)).

(** The three counters of the game object. *)
Definition clock (s : State) : Z * Q * Z :=
  (game_frame (game s), game_subphaseTime (game s), game_phaseIndex (game s)).

Definition pvitals (p : Player) : Q * Q * Q :=
  (player_hp p, player_hpMax p, player_kr p).

(** The state [update] hands to the first collision check: input, physics,
    clamping, and the entities advanced and culled. *)
Definition beforeCollisions {host : MathHost} (s : State) : State :=
  updateBlasters (updateBones (clampToStage (movePlayer (menuTiming s)))).

(** The two bookkeeping writes that open a tick. *)
Definition startTick (deltaMs : Q) (s : State) : State :=
  with_game (fun g => set_subphaseTime (game_subphaseTime g + deltaMs) g)
    (with_game (fun g => set_frame (game_frame g + 1)%Z g) s).

Definition isBlue (b : Bone) : bool := String.eqb (bone_color b) "blue".

(** ** Example inputs

    The examples need some host to run on.  No example below has a blaster
    at an angle other than [0], where the two polynomials are exact. *)

Definition cos_taylor (a : Q) : Q := 1 - a * a / 2 + a * a * a * a / 24.
Definition sin_taylor (a : Q) : Q := a - a * a * a / 6 + a * a * a * a * a / 120.

Definition exampleHost : MathHost :=
  {| Math_cos := cos_taylor; Math_sin := sin_taylor |}.

Definition runExample (evs : list Event) : State :=
  run (host := exampleHost) evs (boot 640 480).

(** Z pressed seven times: the intro is skipped and the cold open starts. *)
Definition skipIntro : list Event := repeat (EvKeyDown "z" false) 7.

Definition ticks (n : nat) (deltaMs : Q) : list Event := repeat (EvUpdate deltaMs) n.

(** The soul turns red and is steered down into the rising cold-open bone
    over nine frames of 16ms. *)
Definition intoTheBone : list Event :=
  (skipIntro ++ [EvKeyDown "c" false; EvKeyDown "ArrowDown" false] ++ ticks 9 16)%list.

(** It then stays put: the bone passes over it in nine more frames, and the
    corruption it left keeps draining for 53 frames. *)
Definition drainedLow : list Event :=
  (intoTheBone ++ [EvKeyUp "ArrowDown"] ++ ticks 62 16)%list.

(** The jump key is held while the blue soul is still falling. *)
Definition jumpHeldInAir : list Event :=
  (skipIntro ++ [EvKeyDown "ArrowUp" false])%list.

(** A soul resting on the floor of a 640x480 stage, at full health, with
    the game past the intro. *)
Definition restingSoul : Player :=
  mkPlayer 320 448 0 0 12 12 3.0 9.0 true false 92 92 0.

Definition cage : list Bone :=
  [ mkBone 220 220 200 10 "white" 0 0;
    mkBone 220 350 200 10 "white" 0 0;
    mkBone 220 220 10 140 "white" 0 0;
    mkBone 410 220 10 140 "white" 0 0 ].

(** The stall has just been set up. *)
Definition stallStart : State :=
  mkState
    (mkGame 640 480 600 true 9 0 0.7 "blue" false true false false)
    restingSoul [] 7%Z None cage [] 0 false "my special attack."
    92%Z 0%Z [] 0%nat.

(** The stall after 251 idle frames of 32ms: the idle timer stands at
    8032ms and the menu has just reopened for the finisher. *)
Definition stallMenu : State :=
  run (host := exampleHost) (ticks 251 32) stallStart.

(** A blaster at the height of the soul's centre, facing it along the x
    axis, entering a tick with [life] frames left. *)
Definition facingBlaster (life : Z) : State :=
  mkState
    (mkGame 640 480 100 true 3 500 0.7 "blue" false false false false)
    restingSoul [] 7%Z None [] [mkBlaster 40 454 0 30 20 life] 0 false "..."
    92%Z 0%Z [] 0%nat.

(** A soul one corruption tick away from zero hp. *)
Definition nearlyDrained : State :=
  mkState
    (mkGame 640 480 100 true 3 500 0.7 "blue" false false false false)
    (mkPlayer 320 448 0 0 12 12 3.0 9.0 true false 1 92 60)
    [] 7%Z None [] [] 0 false "..." 1%Z 60%Z [] 0%nat.

(** Eight frames into [intoTheBone]: the soul is about to touch the bone. *)
Definition beforeFirstContact : State :=
  runExample
    (skipIntro ++ [EvKeyDown "c" false; EvKeyDown "ArrowDown" false] ++ ticks 8 16)%list.

(** The encounter after the finishing strike. *)
Definition wonGame : State := onMenuAction (host := exampleHost) "FIGHT" stallMenu.

(** [vitals_ok] as a check that runs. *)
Definition vitals_okb (s : State) : bool :=
  (Qleb 0 (player_kr (player s)) && Qleb (player_kr (player s)) 60 &&
   Qleb (player_hp (player s)) (player_hpMax (player s)))%bool.

(** ** The frame driver (lines 557-564)

    [loop(now)] with the module variable [last] made explicit: the result
    is the new [last], the state after [update], and whether another
    animation frame was requested.  [draw] only reads the state. *)
Definition loop {host : MathHost} (now last : Q) (s : State) : Q * State * bool :=
  let delta := Qmin 32 (now - last) in
  let s := update delta s in
  (now, s, game_running (game s)).

(** ** The page as the engine's driver

    The program calls [update] from one place, [loop], which the page runs
    once per animation frame with the frame's timestamp; between frames the
    page delivers key events, clicks on the menu buttons and timers.
    [last] (line 557) is kept beside the engine state. *)
Inductive Input :=
| InFrame (now : Q)
| InKeyDown (key : string) (repeat : bool)
| InKeyUp (key : string)
| InClick (action : string)
| InTimer (id : nat).

(** The page: the module variable [last], the engine state, and whether
    an animation frame is requested ([loop] asks for the next one only
    while the game is running). *)
Record Page := mkPage {
  page_last : Q;
  page_state : State;
  page_frame : bool
}.

Definition onState (f : State -> State) (p : Page) : Page :=
  mkPage (page_last p) (f (page_state p)) (page_frame p).

Definition drive1 {host : MathHost} (p : Page) (i : Input) : Page :=
  match i with
  | InFrame now =>
      if page_frame p then
        let '(last, s, again) := loop now (page_last p) (page_state p) in
        mkPage last s again
      else p
  | InKeyDown key repeat => onState (handleKeysDown key repeat) p
  | InKeyUp key => onState (handleKeysUp key) p
  | InClick action => onState (onMenuAction action) p
  | InTimer id => onState (fireTimer id) p
  end.

Definition drive {host : MathHost} (ins : list Input) (p : Page) : Page :=
  fold_left drive1 ins p.

(** The page after loading: [last] is the load time [t0], and [boot] has
    requested the first frame. *)
Definition page (t0 canvas_width canvas_height : Q) : Page :=
  mkPage t0 (boot canvas_width canvas_height) true.

(** Frame timestamps do not go back: every frame comes with a timestamp
    at or after the previous one (the load time for the first frame), a
    frame that arrives while the intro is still active excepted. *)
Definition frameInOrder (p : Page) (i : Input) : Prop :=
  match i with
  | InFrame now => page_last p <= now \/ game_introActive (game (page_state p)) = true
  | _ => True
  end.

Fixpoint framesInOrder {host : MathHost} (p : Page) (ins : list Input) : Prop :=
  match ins with
  | [] => True
  | i :: rest => frameInOrder p i /\ framesInOrder (drive1 p i) rest
  end.

(** [framesInOrder] as a check that runs. *)
Definition frameInOrderb (p : Page) (i : Input) : bool :=
  match i with
  | InFrame now => (Qleb (page_last p) now || game_introActive (game (page_state p)))%bool
  | _ => true
  end.

Fixpoint framesInOrderb {host : MathHost} (p : Page) (ins : list Input) : bool :=
  match ins with
  | [] => true
  | i :: rest => (frameInOrderb p i && framesInOrderb (drive1 p i) rest)%bool
  end.

(** [n] frames, [dt] milliseconds apart, the first at [start + dt]. *)
Definition framesEvery (dt : Q) (start : Q) (n : nat) : list Input :=
  map (fun k => InFrame (start + dt * inject_Z (Z.of_nat (S k)))) (seq 0 n).

(** The play sequence of [drainedLow] as the page delivers it: the page
    loads at time 0 and frames arrive every 16ms. *)
Definition drainedLowInputs : list Input :=
  (repeat (InKeyDown "z" false) 7
   ++ [InKeyDown "c" false; InKeyDown "ArrowDown" false]
   ++ framesEvery 16 0 9 ++ [InKeyUp "ArrowDown"] ++ framesEvery 16 144 62)%list.

(** ** Views of the state used by the further properties *)

(** The game object without [phaseIndex], [subphaseTime] and [specialStall]. *)
Definition staticGame (g : Game) : Q * Q * Z * bool * Q * string * bool * bool * bool :=
  (game_width g, game_height g, game_frame g, game_running g, game_gravity g,
   game_soulColor g, game_inMenu g, game_finished g, game_introActive g).

(** The game object without [running] and [inMenu]. *)
Definition coreGame (g : Game) : Q * Q * Z * Z * Q * Q * string * bool * bool * bool :=
  (game_width g, game_height g, game_frame g, game_phaseIndex g, game_subphaseTime g,
   game_gravity g, game_soulColor g, game_specialStall g, game_finished g,
   game_introActive g).

(** The soul's rectangle. *)
Definition soulBox (p : Player) : Q * Q * Q * Q :=
  (player_x p, player_y p, player_width p, player_height p).

(** hp is at most [h0] and corruption is not negative. *)
Definition boundedHp (h0 : Q) (s : State) : Prop :=
  player_hp (player s) <= h0 /\ 0 <= player_kr (player s).

Definition entities (s : State) : list Bone * list Blaster := (bones s, blasters s).

(** A blaster as [spawnBlaster] makes it, aged by fewer than 70 frames. *)
Definition freshOrAging (g : Blaster) : Prop :=
  (1 <= blaster_life g <= 70)%Z /\ blaster_charge g = 30%Z /\ blaster_fire g = 20%Z.

(** What holds while the intro dialogue is on screen. *)
Definition introQuiet (s : State) : Prop :=
  game_phaseIndex (game s) = 0%Z /\
  game_inMenu (game s) = false /\
  bones s = [] /\ blasters s = [] /\
  vitals s = (92, 92, 0) /\
  (0 <= intro_idx s < 7)%Z /\
  dialogue s = nth (Z.to_nat (intro_idx s)) intro_lines "" /\
  Forall (fun tm => timer_callback tm = CbAdvanceIntro) (timers s).

Definition introInv (s : State) : Prop :=
  game_introActive (game s) = true -> introQuiet s.

(** The inputs of the idle detector. *)
Definition idle (s : State) : list string * Q * bool := (keys s, stallTimer s, napMode s).

(** *** More example inputs *)


(** [nearlyDrained] with a white bone lying across the soul. *)
Definition lastHit : State := set_bones [mkBone 300 440 50 20 "white" 0 0] nearlyDrained.

(** * Properties *)

(** ** Comparisons *)

Lemma Qltb_lt (a b : Q) : Qltb a b = true <-> a < b.
Proof.
  unfold Qltb. rewrite negb_true_iff. split.
  - intro E. apply Qnot_le_lt. intro L.
    apply Qle_bool_iff in L. congruence.
  - intro L. destruct (Qle_bool b a) eqn:E; [|reflexivity].
    apply Qle_bool_iff in E. lra.
Qed.

Lemma Qltb_ge (a b : Q) : Qltb a b = false <-> b <= a.
Proof.
  unfold Qltb. rewrite negb_false_iff. apply Qle_bool_iff.
Qed.

Lemma Qleb_le (a b : Q) : Qleb a b = true <-> a <= b.
Proof. apply Qle_bool_iff. Qed.

Lemma Qleb_gt (a b : Q) : Qleb a b = false <-> b < a.
Proof.
  unfold Qleb. split.
  - intro E. apply Qnot_le_lt. intro L. apply Qle_bool_iff in L. congruence.
  - intro L. destruct (Qle_bool a b) eqn:E; [|reflexivity].
    apply Qle_bool_iff in E. lra.
Qed.

Lemma Qgtb_gt (a b : Q) : Qgtb a b = true <-> b < a.
Proof. apply Qltb_lt. Qed.

Lemma Qmin_cases (a b : Q) : (a <= b /\ Qmin a b == a) \/ (b <= a /\ Qmin a b == b).
Proof.
  destruct (Q.min_spec a b) as [[L E]|[L E]]; [left|right]; split; trivial; lra.
Qed.

Lemma Qmax_cases (a b : Q) : (b <= a /\ Qmax a b == a) \/ (a <= b /\ Qmax a b == b).
Proof.
  destruct (Q.max_spec a b) as [[L E]|[L E]]; [right|left]; split; trivial; lra.
Qed.

(** ** [for_each] *)

Lemma for_each_cons {A} (a : A) (l : list A) (body : A -> State -> State) (s : State) :
  for_each (a :: l) body s = for_each l body (body a s).
Proof. reflexivity. Qed.

Lemma for_each_preserves {A B} (obs : State -> B) (body : A -> State -> State) :
  (forall a s, obs (body a s) = obs s) ->
  forall l s, obs (for_each l body s) = obs s.
Proof.
  intros Hb l. induction l as [|a l IH]; intro s; [reflexivity|].
  rewrite for_each_cons, IH. apply Hb.
Qed.

Section Proofs.

Context {host : MathHost}.

(** ** One hit *)

Lemma hurt_hp (amount addKR : Q) (s : State) :
  player_hp (player (hurt amount addKR s)) = player_hp (player s) - amount.
Proof. unfold hurt. simpl. destruct (Qleb _ _); reflexivity. Qed.

Lemma hurt_kr (amount addKR : Q) (s : State) :
  player_kr (player (hurt amount addKR s)) = Qmin 60 (player_kr (player s) + addKR).
Proof. unfold hurt. simpl. destruct (Qleb _ _); reflexivity. Qed.

Lemma hurt_hpMax (amount addKR : Q) (s : State) :
  player_hpMax (player (hurt amount addKR s)) = player_hpMax (player s).
Proof. unfold hurt. simpl. destruct (Qleb _ _); reflexivity. Qed.

(** A hit leaves the soul where it is and does not touch [moveThisFrame],
    so the bones that damage it are the same before and after. *)
Lemma hurt_boneDamages (amount addKR : Q) (s : State) (b : Bone) :
  boneDamages (player (hurt amount addKR s)) b = boneDamages (player s) b.
Proof. unfold hurt. simpl. destruct (Qleb _ _); reflexivity. Qed.

Lemma hurt_bones (amount addKR : Q) (s : State) :
  bones (hurt amount addKR s) = bones s.
Proof. unfold hurt. simpl. destruct (Qleb _ _); reflexivity. Qed.

(** The death check of [hurt]: the run stops as soon as a hit leaves
    [hp <= 0], and the end-of-run message is shown. *)
Lemma hurt_detects_death (amount addKR : Q) (s : State) :
  player_hp (player s) - amount <= 0 ->
  game_running (game (hurt amount addKR s)) = false /\
  dialogue (hurt amount addKR s) = "you died. refresh to retry.".
Proof.
  intro L. unfold hurt. simpl.
  apply Qleb_le in L. rewrite L. split; reflexivity.
Qed.

Lemma collideBone_spec (b : Bone) (s : State) :
  collideBone b s = if boneDamages (player s) b then hurt 1.2 5 s else s.
Proof.
  unfold collideBone, boneDamages.
  destruct (boneTouches (player s) b); simpl; [|reflexivity].
  destruct (String.eqb (bone_color b) "white"); simpl; [reflexivity|].
  destruct (String.eqb (bone_color b) "blue"); simpl; reflexivity.
Qed.

Lemma collide_list (l : list Bone) :
  forall s, for_each l collideBone s =
            Nat.iter (length (filter (boneDamages (player s)) l)) (hurt 1.2 5) s.
Proof.
  induction l as [|b l IH]; intro s; [reflexivity|].
  rewrite for_each_cons, IH, collideBone_spec. simpl filter.
  destruct (boneDamages (player s) b) eqn:D.
  - rewrite (filter_ext _ _ (hurt_boneDamages 1.2 5 s)).
    simpl length. now rewrite Nat.iter_succ_r.
  - reflexivity.
Qed.

Lemma hurt_iter_hp (n : nat) (s : State) :
  player_hp (player (Nat.iter n (hurt 1.2 5) s)) ==
  player_hp (player s) - 1.2 * inject_Z (Z.of_nat n).
Proof.
  induction n as [|n IH].
  - simpl. ring.
  - rewrite Nat.iter_succ, hurt_hp, IH, Nat2Z.inj_succ.
    unfold Z.succ. rewrite inject_Z_plus. ring.
Qed.

Lemma hurt_iter_kr (n : nat) (s : State) :
  player_kr (player s) <= 60 ->
  player_kr (player (Nat.iter n (hurt 1.2 5) s)) ==
  Qmin 60 (player_kr (player s) + 5 * inject_Z (Z.of_nat n)).
Proof.
  intro L. induction n as [|n IH].
  - simpl Nat.iter. change (inject_Z (Z.of_nat 0)) with 0.
    destruct (Qmin_cases 60 (player_kr (player s) + 5 * 0)) as [[? E]|[? E]];
      rewrite E; lra.
  - rewrite Nat.iter_succ, hurt_kr, Nat2Z.inj_succ.
    unfold Z.succ. rewrite inject_Z_plus.
    assert (0 <= inject_Z (Z.of_nat n)) as Hn.
    { change 0 with (inject_Z 0). rewrite <- Zle_Qle. lia. }
    set (k := inject_Z (Z.of_nat n)) in *.
    set (a := player_kr (player (Nat.iter n (hurt 1.2 5) s))) in *.
    change (inject_Z 1) with 1.
    destruct (Qmin_cases 60 (a + 5)) as [[? E1]|[? E1]];
    destruct (Qmin_cases 60 (player_kr (player s) + 5 * k)) as [[? E2]|[? E2]];
    destruct (Qmin_cases 60 (player_kr (player s) + 5 * (k + 1))) as [[? E3]|[? E3]];
      rewrite E1, E3; rewrite E2 in IH; lra.
Qed.



(** ** What a tick leaves alone *)


(** Case analysis on the conditions of the code, innermost first. *)
Ltac split_ifs :=
  repeat match goal with
         | |- context [if ?c then _ else _] =>
             lazymatch c with
             | context [if _ then _ else _] => fail
             | _ => destruct c
             end
         end.

Lemma hurt_clock (amount addKR : Q) (s : State) :
  clock (hurt amount addKR s) = clock s.
Proof. unfold hurt. simpl. destruct (Qleb _ _); reflexivity. Qed.

Lemma hurt_moved (amount addKR : Q) (s : State) :
  player_moveThisFrame (player (hurt amount addKR s)) =
  player_moveThisFrame (player s).
Proof. unfold hurt. simpl. destruct (Qleb _ _); reflexivity. Qed.

Lemma collideBone_clock (b : Bone) (s : State) : clock (collideBone b s) = clock s.
Proof. rewrite collideBone_spec. destruct (boneDamages _ _); [apply hurt_clock|reflexivity]. Qed.

Lemma collideBone_moved (b : Bone) (s : State) :
  player_moveThisFrame (player (collideBone b s)) = player_moveThisFrame (player s).
Proof. rewrite collideBone_spec. destruct (boneDamages _ _); [apply hurt_moved|reflexivity]. Qed.

Lemma collideBlaster_spec (g : Blaster) (s : State) :
  collideBlaster g s = s \/ collideBlaster g s = hurt 0.9 6 s.
Proof. unfold collideBlaster. split_ifs; auto. Qed.

Lemma collideBlaster_clock (g : Blaster) (s : State) :
  clock (collideBlaster g s) = clock s.
Proof.
  destruct (collideBlaster_spec g s) as [E|E]; rewrite E;
    [reflexivity|apply hurt_clock].
Qed.

Lemma collideBlaster_moved (g : Blaster) (s : State) :
  player_moveThisFrame (player (collideBlaster g s)) =
  player_moveThisFrame (player s).
Proof.
  destruct (collideBlaster_spec g s) as [E|E]; rewrite E;
    [reflexivity|apply hurt_moved].
Qed.

Lemma applyKR_clock (delta : Q) (s : State) : clock (applyKR delta s) = clock s.
Proof. unfold applyKR. split_ifs; reflexivity. Qed.

Lemma applyKR_moved (delta : Q) (s : State) :
  player_moveThisFrame (player (applyKR delta s)) = player_moveThisFrame (player s).
Proof. unfold applyKR. split_ifs; reflexivity. Qed.

Lemma tryAllowStallEscape_clock (delta : Q) (s : State) :
  clock (tryAllowStallEscape delta s) = clock s.
Proof. unfold tryAllowStallEscape. split_ifs; reflexivity. Qed.

Lemma tryAllowStallEscape_player (delta : Q) (s : State) :
  player (tryAllowStallEscape delta s) = player s.
Proof. unfold tryAllowStallEscape. split_ifs; reflexivity. Qed.

Lemma offerFinisher_clock (s : State) : clock (offerFinisher s) = clock s.
Proof. unfold offerFinisher. split_ifs; reflexivity. Qed.

Lemma offerFinisher_player (s : State) : player (offerFinisher s) = player s.
Proof. unfold offerFinisher. split_ifs; reflexivity. Qed.

Lemma menuTiming_clock (s : State) : clock (menuTiming s) = clock s.
Proof. unfold menuTiming. split_ifs; reflexivity. Qed.

Lemma menuTiming_player (s : State) : player (menuTiming s) = player s.
Proof. unfold menuTiming. split_ifs; reflexivity. Qed.

Lemma movePlayer_clock (s : State) : clock (movePlayer s) = clock s.
Proof. unfold movePlayer. split_ifs; reflexivity. Qed.



Lemma moveRed_pvitals (left right up down : bool) (p : Player) :
  pvitals (moveRed left right up down p) = pvitals p.
Proof. destruct left, right, up, down; reflexivity. Qed.

Lemma moveBlue_pvitals (gravity : Q) (left right up : bool) (p : Player) :
  pvitals (moveBlue gravity left right up p) = pvitals p.
Proof.
  unfold moveBlue.
  destruct left, right, up, (player_onGround p) eqn:G; cbn [andb]; cbv zeta;
    split_ifs; reflexivity.
Qed.

Lemma movePlayer_vitals (s : State) : vitals (movePlayer s) = vitals s.
Proof.
  transitivity (pvitals (player (movePlayer s))); [reflexivity|].
  unfold movePlayer. cbv zeta.
  destruct (String.eqb _ "red"); unfold with_player; cbn [player];
    [rewrite moveRed_pvitals | rewrite moveBlue_pvitals]; reflexivity.
Qed.

Lemma clampToStage_player_rest (s : State) :
  pvitals (player (clampToStage s)) = pvitals (player s) /\
  player_moveThisFrame (player (clampToStage s)) = player_moveThisFrame (player s).
Proof. split; reflexivity. Qed.

Lemma clampToStage_clock (s : State) : clock (clampToStage s) = clock s.
Proof. reflexivity. Qed.

Lemma updateBones_player (s : State) : player (updateBones s) = player s.
Proof. reflexivity. Qed.

Lemma updateBones_game (s : State) : game (updateBones s) = game s.
Proof. reflexivity. Qed.

Lemma updateBlasters_player (s : State) : player (updateBlasters s) = player s.
Proof. reflexivity. Qed.

Lemma updateBlasters_game (s : State) : game (updateBlasters s) = game s.
Proof. reflexivity. Qed.

Lemma beforeCollisions_vitals (s : State) : vitals (beforeCollisions s) = vitals s.
Proof.
  unfold beforeCollisions, vitals.
  rewrite updateBlasters_player, updateBones_player.
  change (pvitals (player (clampToStage (movePlayer (menuTiming s)))) =
          pvitals (player s)).
  rewrite (proj1 (clampToStage_player_rest _)).
  change (vitals (movePlayer (menuTiming s)) = pvitals (player s)).
  rewrite movePlayer_vitals. unfold vitals. now rewrite menuTiming_player.
Qed.

Lemma beforeCollisions_clock (s : State) : clock (beforeCollisions s) = clock s.
Proof.
  unfold beforeCollisions, clock.
  rewrite updateBlasters_game, updateBones_game.
  change (clock (clampToStage (movePlayer (menuTiming s))) = clock s).
  now rewrite clampToStage_clock, movePlayer_clock, menuTiming_clock.
Qed.

Lemma beforeCollisions_moved (s : State) :
  player_moveThisFrame (player (beforeCollisions s)) =
  player_moveThisFrame (player (movePlayer (menuTiming s))).
Proof.
  unfold beforeCollisions.
  rewrite updateBlasters_player, updateBones_player.
  apply (proj2 (clampToStage_player_rest _)).
Qed.

Lemma updateUI_player (s : State) : player (updateUI s) = player s.
Proof. reflexivity. Qed.

Lemma updateUI_clock (s : State) : clock (updateUI s) = clock s.
Proof. reflexivity. Qed.

Lemma simulate_unfold (deltaMs : Q) (s : State) :
  simulate deltaMs s =
  updateUI (offerFinisher (tryAllowStallEscape deltaMs (applyKR deltaMs
    (collideBlasters (collideBones (beforeCollisions s)))))).
Proof. reflexivity. Qed.

Lemma simulate_clock (deltaMs : Q) (s : State) : clock (simulate deltaMs s) = clock s.
Proof.
  rewrite simulate_unfold, updateUI_clock.
  rewrite offerFinisher_clock, tryAllowStallEscape_clock, applyKR_clock.
  unfold collideBlasters, collideBones.
  rewrite (for_each_preserves clock collideBlaster collideBlaster_clock).
  rewrite (for_each_preserves clock collideBone collideBone_clock).
  apply beforeCollisions_clock.
Qed.

Lemma simulate_moved (deltaMs : Q) (s : State) :
  player_moveThisFrame (player (simulate deltaMs s)) =
  player_moveThisFrame (player (movePlayer (menuTiming s))).
Proof.
  rewrite simulate_unfold, updateUI_player.
  rewrite offerFinisher_player, tryAllowStallEscape_player, applyKR_moved.
  unfold collideBlasters, collideBones.
  rewrite (for_each_preserves (fun s => player_moveThisFrame (player s))
             collideBlaster collideBlaster_moved).
  rewrite (for_each_preserves (fun s => player_moveThisFrame (player s))
             collideBone collideBone_moved).
  apply beforeCollisions_moved.
Qed.

(** Once [game.running] is false, [update] returns at once. *)
Lemma update_stopped (deltaMs : Q) (s : State) :
  game_running (game s) = false -> update deltaMs s = s.
Proof. intro R. unfold update. now rewrite R. Qed.



(** ** The tick, opened up *)

Lemma update_running (deltaMs : Q) (s : State) :
  game_running (game s) = true ->
  game_introActive (game s) = false ->
  update deltaMs s = simulate deltaMs (startTick deltaMs s).
Proof.
  intros R I. unfold update. rewrite R. cbn [negb]. cbv zeta.
  cbn [game_introActive game with_game set_subphaseTime set_frame].
  now rewrite I.
Qed.

Lemma update_clock (deltaMs : Q) (s : State) :
  game_running (game s) = true ->
  clock (update deltaMs s) =
  ((game_frame (game s) + 1)%Z, game_subphaseTime (game s) + deltaMs,
   game_phaseIndex (game s)).
Proof.
  intro R. destruct (game_introActive (game s)) eqn:I.
  - unfold update. rewrite R. cbn [negb]. cbv zeta.
    cbn [game_introActive game with_game set_subphaseTime set_frame].
    rewrite I. reflexivity.
  - rewrite update_running, simulate_clock by assumption. reflexivity.
Qed.

(** ** The corruption step *)

Lemma applyKR_idle (delta : Q) (s : State) :
  player_kr (player s) <= 0 -> applyKR delta s = s.
Proof. intro L. unfold applyKR. apply Qleb_le in L. now rewrite L. Qed.

Lemma applyKR_active (delta : Q) (s : State) :
  0 < player_kr (player s) ->
  player_hp (player (applyKR delta s)) =
    player_hp (player s) - Qmin (player_kr (player s)) (0.08 * delta) /\
  player_kr (player (applyKR delta s)) =
    Qmax 0 (player_kr (player s) - 0.02 * delta) /\
  player_hpMax (player (applyKR delta s)) = player_hpMax (player s).
Proof.
  intro L. unfold applyKR. apply Qleb_gt in L. rewrite L. repeat split.
Qed.

(** C5 (amended). When corruption is positive, [applyKR] takes exactly
    [min(corruption, 0.08 * delta)] off hp and then sets corruption to
    [max(0, corruption - 0.02 * delta)]; when corruption is zero (or less)
    nothing changes.  For a non-negative [delta] and corruption the drain
    of one tick lies between 0 and both [0.08 * delta] and the corruption.
    Nothing floors hp: the drain is taken whatever hp is left. *)
Theorem C5_corruption_drain_and_decay (delta : Q) (s : State) :
  (0 < player_kr (player s) ->
     player_hp (player (applyKR delta s)) =
       player_hp (player s) - Qmin (player_kr (player s)) (0.08 * delta) /\
     player_kr (player (applyKR delta s)) =
       Qmax 0 (player_kr (player s) - 0.02 * delta)) /\
  (player_kr (player s) <= 0 -> applyKR delta s = s) /\
  (0 <= delta -> 0 <= player_kr (player s) ->
     0 <= player_hp (player s) - player_hp (player (applyKR delta s)) /\
     player_hp (player s) - player_hp (player (applyKR delta s)) <= 0.08 * delta /\
     player_hp (player s) - player_hp (player (applyKR delta s)) <= player_kr (player s)).
Proof.
  split; [|split].
  - intro L. destruct (applyKR_active delta s L) as (E1 & E2 & _). now split.
  - apply applyKR_idle.
  - intros D K. destruct (Qlt_le_dec 0 (player_kr (player s))) as [L|L].
    + destruct (applyKR_active delta s L) as (E1 & _). rewrite E1.
      destruct (Qmin_cases (player_kr (player s)) (0.08 * delta)) as [[? E]|[? E]];
        rewrite E; repeat split; lra.
    + rewrite (applyKR_idle delta s L). repeat split; lra.
Qed.

Lemma applyKR_zero (s : State) :
  player_hp (player (applyKR 0 s)) == player_hp (player s) /\
  player_kr (player (applyKR 0 s)) == player_kr (player s).
Proof.
  destruct (Qlt_le_dec 0 (player_kr (player s))) as [L|L].
  - destruct (applyKR_active 0 s L) as (E1 & E2 & _). rewrite E1, E2.
    destruct (Qmin_cases (player_kr (player s)) (0.08 * 0)) as [[? E]|[? E]];
    destruct (Qmax_cases 0 (player_kr (player s) - 0.02 * 0)) as [[? E']|[? E']];
      rewrite E, E'; split; lra.
  - rewrite (applyKR_idle 0 s L). split; reflexivity.
Qed.


(** ** Movement flags *)

Lemma moveBlue_moved (gravity : Q) (left right up : bool) (p : Player) :
  player_moveThisFrame p = false ->
  player_moveThisFrame (moveBlue gravity left right up p) =
  (left || right || (up && player_onGround p))%bool.
Proof.
  intro M. unfold moveBlue. destruct p as [x y vx vy w h sp jp og mv hp hm kr].
  cbn in M. subst mv.
  destruct left, right, up, og; cbn; split_ifs; reflexivity.
Qed.

Lemma moveRed_moved (left right up down : bool) (p : Player) :
  player_moveThisFrame p = false ->
  player_moveThisFrame (moveRed left right up down p) =
  (left || right || up || down)%bool.
Proof. intro M. destruct left, right, up, down; cbn; try reflexivity; assumption. Qed.

Lemma movePlayer_moved (s : State) :
  player_moveThisFrame (player (movePlayer s)) =
  if String.eqb (game_soulColor (game s)) "red"
  then (key_left s || key_right s || key_up s || key_down s)%bool
  else (key_left s || key_right s || (key_up s && player_onGround (player s)))%bool.
Proof.
  unfold movePlayer. cbv zeta.
  change (game_soulColor (game (with_player (set_moveThisFrame false) s)))
    with (game_soulColor (game s)).
  change (game_gravity (game (with_player (set_moveThisFrame false) s)))
    with (game_gravity (game s)).
  change (key_down (with_player (set_moveThisFrame false) s)) with (key_down s).
  destruct (String.eqb _ "red"); unfold with_player; cbn [player].
  - now rewrite moveRed_moved.
  - now rewrite moveBlue_moved.
Qed.

(** C8 (amended). In Platforming mode (any soul colour but red), after a
    tick of a running game past the intro, [moveThisFrame] is true exactly
    when left or right was held, or an up or jump key was held while the
    soul stood on the ground at the start of the tick.  An up key held in
    the air, and the down key, do not count. *)
Theorem C8_moved_flag_platforming (deltaMs : Q) (s : State) :
  game_running (game s) = true ->
  game_introActive (game s) = false ->
  String.eqb (game_soulColor (game s)) "red" = false ->
  player_moveThisFrame (player (update deltaMs s)) =
  (key_left s || key_right s || (key_up s && player_onGround (player s)))%bool.
Proof.
  intros R I C. rewrite update_running, simulate_moved, movePlayer_moved by assumption.
  assert (menuTiming (startTick deltaMs s) = startTick deltaMs s \/
          menuTiming (startTick deltaMs s) = resetForMenu (startTick deltaMs s)) as [E|E]
    by (unfold menuTiming; split_ifs; auto).
  - rewrite E.
    change (game_soulColor (game (startTick deltaMs s))) with (game_soulColor (game s)).
    now rewrite C.
  - rewrite E.
    change (game_soulColor (game (resetForMenu (startTick deltaMs s))))
      with (game_soulColor (game s)).
    now rewrite C.
Qed.

(** ** The vitals invariant *)

Lemma for_each_invariant {A} (P : State -> Prop) (body : A -> State -> State) :
  (forall a s, P s -> P (body a s)) ->
  forall l s, P s -> P (for_each l body s).
Proof.
  intros Hb l. induction l as [|a l IH]; intros s Hs; [exact Hs|].
  rewrite for_each_cons. apply IH, Hb, Hs.
Qed.

Lemma vitals_ok_eq (s s' : State) :
  vitals s' = vitals s -> vitals_ok s -> vitals_ok s'.
Proof.
  unfold vitals, vitals_ok. intros E. injection E as E1 E2 E3.
  now rewrite E1, E2, E3.
Qed.

Lemma hurt_ok (amount addKR : Q) (s : State) :
  0 <= amount -> 0 <= addKR -> vitals_ok s -> vitals_ok (hurt amount addKR s).
Proof.
  intros A K (L0 & L60 & Lhp). unfold vitals_ok.
  rewrite hurt_hp, hurt_kr, hurt_hpMax.
  destruct (Qmin_cases 60 (player_kr (player s) + addKR)) as [[? E]|[? E]];
    rewrite E; repeat split; lra.
Qed.

Lemma applyKR_ok (delta : Q) (s : State) :
  0 <= delta -> vitals_ok s -> vitals_ok (applyKR delta s).
Proof.
  intros D (L0 & L60 & Lhp).
  destruct (Qlt_le_dec 0 (player_kr (player s))) as [L|L].
  - destruct (applyKR_active delta s L) as (E1 & E2 & E3).
    unfold vitals_ok. rewrite E1, E2, E3.
    destruct (Qmin_cases (player_kr (player s)) (0.08 * delta)) as [[? E]|[? E]];
    destruct (Qmax_cases 0 (player_kr (player s) - 0.02 * delta)) as [[? E']|[? E']];
      rewrite E, E'; repeat split; lra.
  - rewrite (applyKR_idle delta s L). now repeat split.
Qed.

Lemma collideBones_ok (s : State) : vitals_ok s -> vitals_ok (collideBones s).
Proof.
  apply for_each_invariant. intros b st Hst. rewrite collideBone_spec.
  destruct (boneDamages _ _); [apply hurt_ok; trivial; lra | exact Hst].
Qed.

Lemma collideBlasters_ok (s : State) : vitals_ok s -> vitals_ok (collideBlasters s).
Proof.
  apply for_each_invariant. intros g st Hst.
  destruct (collideBlaster_spec g st) as [E|E]; rewrite E;
    [exact Hst | apply hurt_ok; trivial; lra].
Qed.

Lemma vitals_ok_player (s s' : State) :
  player s' = player s -> vitals_ok s -> vitals_ok s'.
Proof. unfold vitals_ok. intros E. now rewrite E. Qed.

Lemma simulate_ok (deltaMs : Q) (s : State) :
  0 <= deltaMs -> vitals_ok s -> vitals_ok (simulate deltaMs s).
Proof.
  intros D Hs. rewrite simulate_unfold.
  eapply vitals_ok_player.
  { now rewrite updateUI_player, offerFinisher_player, tryAllowStallEscape_player. }
  apply applyKR_ok, collideBlasters_ok, collideBones_ok; trivial.
  apply (vitals_ok_eq s); [apply beforeCollisions_vitals | exact Hs].
Qed.

Lemma update_ok (deltaMs : Q) (s : State) :
  0 <= deltaMs -> vitals_ok s -> vitals_ok (update deltaMs s).
Proof.
  intros D Hs. unfold update. destruct (game_running (game s)); cbn [negb]; [|exact Hs].
  cbv zeta. fold (startTick deltaMs s).
  destruct (game_introActive _).
  - exact Hs.
  - apply simulate_ok; trivial.
Qed.

(** Everything outside the tick and the ITEM action leaves hp, hpMax and
    corruption alone. *)
Lemma advanceIntro_vitals (s : State) : vitals (advanceIntro s) = vitals s.
Proof.
  unfold advanceIntro. destruct (negb _); [reflexivity|]. cbv zeta.
  destruct (intro_timer s); destruct (Z.ltb _ _); reflexivity.
Qed.

Lemma handleKeysDown_vitals (key : string) (repeat : bool) (s : State) :
  vitals (handleKeysDown key repeat s) = vitals s.
Proof.
  unfold handleKeysDown. destruct repeat; [reflexivity|].
  destruct (_ && _)%bool; [apply advanceIntro_vitals|]. cbv zeta.
  unfold keys_add. split_ifs; reflexivity.
Qed.

Lemma handleKeysUp_vitals (key : string) (s : State) :
  vitals (handleKeysUp key s) = vitals s.
Proof. reflexivity. Qed.

Lemma specialAttackStallSetup_vitals (s : State) :
  vitals (specialAttackStallSetup s) = vitals s.
Proof. reflexivity. Qed.

Lemma nextAttack_vitals (s : State) : vitals (nextAttack s) = vitals s.
Proof.
  unfold nextAttack. cbv zeta.
  destruct (game_specialStall _); [reflexivity|].
  lazymatch goal with
  | |- context [match ?p with Z0 => _ | Zpos _ => _ | Zneg _ => _ end] =>
      destruct p as [|[[[q|q|]|[q|q|]|]|[[q|q|]|[q|q|]|]|]|q]
  end; reflexivity.
Qed.

Lemma runCallback_vitals (cb : Callback) (s : State) :
  vitals (runCallback cb s) = vitals s.
Proof. destruct cb; try reflexivity. apply advanceIntro_vitals. Qed.

Lemma fireTimer_vitals (id : nat) (s : State) : vitals (fireTimer id s) = vitals s.
Proof.
  unfold fireTimer. destruct (find _ _); [|reflexivity].
  rewrite runCallback_vitals. reflexivity.
Qed.

Lemma onMenuAction_ok (action : string) (s : State) :
  vitals_ok s -> vitals_ok (onMenuAction action s).
Proof.
  intro Hs. unfold onMenuAction.
  destruct (negb _); [exact Hs|].
  destruct (finisherReady _ _); [exact Hs|].
  destruct (String.eqb action "FIGHT").
  { eapply vitals_ok_eq; [apply nextAttack_vitals|exact Hs]. }
  destruct (String.eqb action "ACT").
  { eapply vitals_ok_eq; [apply nextAttack_vitals|exact Hs]. }
  destruct (String.eqb action "ITEM").
  { cbv zeta. eapply vitals_ok_eq; [apply nextAttack_vitals|].
    destruct Hs as (L0 & L60 & Lhp). unfold vitals_ok. cbn.
    destruct (Qmin_cases (player_hpMax (player s)) (player_hp (player s) + 18))
      as [[? E]|[? E]]; rewrite E; repeat split; lra. }
  destruct (String.eqb action "MERCY").
  { eapply vitals_ok_eq; [apply nextAttack_vitals|exact Hs]. }
  exact Hs.
Qed.

Lemma step_ok (s : State) (e : Event) :
  forwardInTime e -> vitals_ok s -> vitals_ok (step s e).
Proof.
  intros F Hs. destruct e as [d|k r|k|a|id]; cbn [step].
  - now apply update_ok.
  - eapply vitals_ok_eq; [apply handleKeysDown_vitals|exact Hs].
  - exact Hs.
  - now apply onMenuAction_ok.
  - eapply vitals_ok_eq; [apply fireTimer_vitals|exact Hs].
Qed.

Lemma boot_ok (w h : Q) : vitals_ok (boot w h).
Proof. unfold vitals_ok. cbn. repeat split; lra. Qed.

(** Started from [boot], and under any sequence of direct calls in which
    every [update] is given a non-negative elapsed time, key events, menu
    clicks and timers, the state always satisfies [0 <= corruption <= 60]
    and [hp <= hpMax]. *)
Theorem run_keeps_vitals (w h : Q) (evs : list Event) :
  Forall forwardInTime evs -> vitals_ok (run evs (boot w h)).
Proof.
  unfold run. generalize (boot_ok w h). generalize (boot w h).
  induction evs as [|e evs IH]; intros s Hs F; [exact Hs|].
  inversion F as [|? ? Fe Fevs]; subst. cbn [fold_left].
  apply IH; [apply step_ok; assumption | assumption].
Qed.

(** ** The menu in the stall *)

Lemma nextAttack_in_stall (s : State) :
  game_specialStall (game s) = true ->
  nextAttack s =
  specialAttackStallSetup
    (with_game (set_phaseIndex (game_phaseIndex (game s) + 1)%Z)
       (with_game (set_subphaseTime 0)
          (with_player (fun p => set_moveThisFrame false (set_vy 0 (set_vx 0 p)))
             (set_blasters [] (set_bones [] s))))).
Proof.
  intro S. unfold nextAttack. cbv zeta.
  cbn [game_specialStall game with_game with_player set_phaseIndex set_subphaseTime
       set_blasters set_bones].
  now rewrite S.
Qed.

Lemma finisherReady_fight (s : State) :
  game_specialStall (game s) = true ->
  game_finished (game s) = false ->
  finisherReady "FIGHT" s = true <-> napMode s = true /\ 8000 < stallTimer s.
Proof.
  intros S F. unfold finisherReady. rewrite S, F. cbn.
  rewrite !andb_true_r, andb_true_iff, Qgtb_gt. reflexivity.
Qed.

(** What a menu action does when it is not the finisher: the menu closes
    and [nextAttack] runs, which in the stall rebuilds the enclosure. *)
Lemma onMenuAction_restarts_stall (action : string) (s : State) :
  game_inMenu (game s) = true ->
  game_specialStall (game s) = true ->
  finisherReady action s = false ->
  In action ["FIGHT"; "ACT"; "ITEM"; "MERCY"] ->
  game_inMenu (game (onMenuAction action s)) = false /\
  game_phaseIndex (game (onMenuAction action s)) = (game_phaseIndex (game s) + 1)%Z /\
  bones (onMenuAction action s) = cage /\
  blasters (onMenuAction action s) = [] /\
  game_running (game (onMenuAction action s)) = game_running (game s) /\
  game_finished (game (onMenuAction action s)) = game_finished (game s) /\
  game_specialStall (game (onMenuAction action s)) = true.
Proof.
  intros M S F A. unfold onMenuAction. rewrite M, F. cbn [negb].
  cbn [In] in A.
  destruct A as [A|[A|[A|[A|[]]]]]; subst action; cbn [String.eqb Ascii.eqb Bool.eqb];
    cbv zeta; rewrite nextAttack_in_stall by exact S; cbn; rewrite ?S; repeat split.
Qed.

(** C6 (amended). In the stall with the menu open, FIGHT ends the encounter
    in a win exactly when nap mode is on, the idle timer exceeds 8000ms and
    the encounter is not yet finished; then the game stops and phase index
    and bones stay as they are.  Every other case of the four menu actions
    is not ignored: it closes the menu, increments the phase index, clears
    the entities and rebuilds the four-wall enclosure, and the encounter
    goes on in the stall. *)
Theorem C6_stall_menu_actions (action : string) (s : State) :
  game_inMenu (game s) = true ->
  game_specialStall (game s) = true ->
  game_finished (game (onMenuAction action s)) =
    (game_finished (game s) || finisherReady action s)%bool /\
  (game_finished (game s) = false ->
     (finisherReady "FIGHT" s = true <-> napMode s = true /\ 8000 < stallTimer s)) /\
  (finisherReady action s = true ->
     action = "FIGHT" /\
     game_running (game (onMenuAction action s)) = false /\
     game_inMenu (game (onMenuAction action s)) = false /\
     game_phaseIndex (game (onMenuAction action s)) = game_phaseIndex (game s) /\
     bones (onMenuAction action s) = bones s) /\
  (finisherReady action s = false ->
     In action ["FIGHT"; "ACT"; "ITEM"; "MERCY"] ->
     game_inMenu (game (onMenuAction action s)) = false /\
     game_phaseIndex (game (onMenuAction action s)) = (game_phaseIndex (game s) + 1)%Z /\
     bones (onMenuAction action s) = cage /\
     blasters (onMenuAction action s) = [] /\
     game_running (game (onMenuAction action s)) = game_running (game s) /\
     game_specialStall (game (onMenuAction action s)) = true).
Proof.
  intros M S. split; [|split; [|split]].
  - destruct (finisherReady action s) eqn:F.
    + unfold onMenuAction. rewrite M, F. cbn. now rewrite orb_true_r.
    + rewrite orb_false_r. unfold onMenuAction. rewrite M, F. cbn [negb].
      destruct (String.eqb action "FIGHT");
        [rewrite nextAttack_in_stall by exact S; reflexivity|].
      destruct (String.eqb action "ACT");
        [rewrite nextAttack_in_stall by exact S; reflexivity|].
      destruct (String.eqb action "ITEM");
        [cbv zeta; rewrite nextAttack_in_stall by exact S; reflexivity|].
      destruct (String.eqb action "MERCY");
        [rewrite nextAttack_in_stall by exact S; reflexivity|].
      reflexivity.
  - intro F. now apply finisherReady_fight.
  - intro F. split.
    + unfold finisherReady in F. rewrite !andb_true_iff in F.
      destruct F as [[_ F] _]. now apply String.eqb_eq.
    + unfold onMenuAction. rewrite M, F. cbn. now repeat split.
  - intros F A.
    destruct (onMenuAction_restarts_stall action s M S F A)
      as (E1 & E2 & E3 & E4 & E5 & _ & E7).
    now repeat split.
Qed.

(** ** Blaster beams *)

Lemma collideBlaster_charging (g : Blaster) (s : State) :
  (40 <= blaster_life g)%Z -> collideBlaster g s = s.
Proof.
  intro L. unfold collideBlaster. cbv zeta.
  apply Z.ltb_ge in L. now rewrite L.
Qed.

Lemma collideBlaster_wide (g : Blaster) (s : State) :
  beamWidth <= beamPerp (player s) g -> collideBlaster g s = s.
Proof.
  intro L. unfold collideBlaster. cbv zeta.
  destruct (negb _); [reflexivity|].
  apply Qltb_ge in L. rewrite L. now rewrite !andb_false_r.
Qed.

Lemma collideBlaster_hit (g : Blaster) (s : State) :
  (blaster_life g < 40)%Z ->
  0 < beamProj (player s) g -> beamProj (player s) g < beamLength ->
  beamPerp (player s) g < beamWidth ->
  collideBlaster g s = hurt 0.9 6 s.
Proof.
  intros L P1 P2 P3. unfold collideBlaster. cbv zeta.
  apply Z.ltb_lt in L. rewrite L. cbn [negb].
  apply Qgtb_gt in P1. apply Qltb_lt in P2. apply Qltb_lt in P3.
  now rewrite P1, P2, P3.
Qed.

(** ** The guard drop *)

(** Past 6000ms in nap mode, every idle tick appends a blue bone. *)
Lemma tryAllowStallEscape_guard_drop (delta : Q) (s : State) :
  game_specialStall (game s) = true ->
  stallMoving s = false ->
  napMode s = true ->
  6000 < stallTimer s + delta ->
  bones (tryAllowStallEscape delta s) =
  (bones s ++ [mkBone 220 220 200 10 "blue" 0 0])%list.
Proof.
  intros S K N T. apply Qgtb_gt in T.
  unfold tryAllowStallEscape. rewrite S, K. cbn [negb]. cbv zeta.
  change (napMode (set_stallTimer (stallTimer s + delta) s)) with (napMode s).
  rewrite N. cbn [negb andb].
  change (stallTimer (set_stallTimer (stallTimer s + delta) s))
    with (stallTimer s + delta).
  rewrite T.
  change (napMode (set_stallTimer (stallTimer s + delta) s)) with (napMode s).
  rewrite N. reflexivity.
Qed.

End Proofs.

(** * The properties at the example inputs *)

Lemma vitals_okb_iff (s : State) : vitals_okb s = true <-> vitals_ok s.
Proof.
  unfold vitals_okb, vitals_ok. rewrite !andb_true_iff, !Qleb_le. tauto.
Qed.

(** ** The vitals along direct calls *)

Lemma drainedLow_forward : Forall forwardInTime drainedLow.
Proof.
  unfold drainedLow, intoTheBone, skipIntro, ticks. cbn [repeat app].
  repeat constructor; cbn; lra.
Qed.

Lemma run_keeps_vitals_along_drainedLow :
  Forall forwardInTime drainedLow /\ vitals_ok (runExample drainedLow).
Proof.
  split; [exact drainedLow_forward|].
  exact (@run_keeps_vitals exampleHost 640 480 drainedLow drainedLow_forward).
Defined.

(** [update] itself has no guard on the sign of its argument; it is
    [loop] that keeps the elapsed time from being negative.  Called
    directly with [-1000] on the state [runExample intoTheBone] (hp 89.52,
    corruption 4.68), [update] drains [min(9.68, -80)], that is, adds 80
    hp, and leaves hp at 168.32 above hpMax 92. *)
Lemma update_alone_needs_forward_time :
  vitals_ok (runExample intoTheBone) /\
  player_hp (player (update (host := exampleHost) (-1000) (runExample intoTheBone)))
    == 168.32 /\
  ~ vitals_ok (update (host := exampleHost) (-1000) (runExample intoTheBone)).
Proof.
  split; [|split].
  - apply vitals_okb_iff. vm_compute. reflexivity.
  - vm_compute. reflexivity.
  - intro V. apply vitals_okb_iff in V. vm_compute in V. discriminate V.
Qed.

(** ** C3 *)

(** C3 (the code departs from the claim). Along [drainedLow] the soul is
    hit nine times and then only drained.  The next frame has no hit and
    takes hp from 0.56 to -0.72, yet the game keeps running, the
    end-of-run message is not shown, and the frame after that is simulated
    again and drains further. *)
Theorem C3_drained_below_zero_still_running :
  0 < player_hp (player (runExample drainedLow)) /\
  boneHits (beforeCollisions (host := exampleHost) (startTick 16 (runExample drainedLow)))
    = 0%nat /\
  player_hp (player (update (host := exampleHost) 16 (runExample drainedLow))) == -0.72 /\
  game_running (game (update (host := exampleHost) 16 (runExample drainedLow))) = true /\
  dialogue (update (host := exampleHost) 16 (runExample drainedLow)) = "..." /\
  player_hp (player (update (host := exampleHost) 16
                       (update (host := exampleHost) 16 (runExample drainedLow)))) == -2.
Proof.
  split; [apply Qltb_lt; vm_compute; reflexivity|].
  repeat apply conj; vm_compute; reflexivity.
Qed.

(** ** C4 *)

(** C4 (the code departs from the claim). A blaster whose remaining
    lifetime is exactly 40 at the collision check does no damage although
    the soul's centre lies on its ray (forward projection 286, distance 0);
    one frame later, at lifetime 39, the same blaster hits. *)
Theorem C4_no_beam_at_lifetime_40 :
  map blaster_life (blasters (beforeCollisions (host := exampleHost)
                                (startTick 16 (facingBlaster 41)))) = [40%Z] /\
  beamProj (host := exampleHost) restingSoul (mkBlaster 40 454 0 30 20 40) == 286 /\
  beamPerp (host := exampleHost) restingSoul (mkBlaster 40 454 0 30 20 40) == 0 /\
  vitals (update (host := exampleHost) 16 (facingBlaster 41)) = vitals (facingBlaster 41) /\
  player_hp (player (collideBlasters (host := exampleHost)
                       (beforeCollisions (host := exampleHost)
                          (startTick 16 (facingBlaster 40))))) == 91.1.
Proof.
  repeat apply conj; vm_compute; reflexivity.
Qed.

(** ** C5 *)

Lemma C5_at_drainedLow :
  0 < player_kr (player (runExample drainedLow)) /\
  player_hp (player (applyKR 16 (runExample drainedLow))) =
    player_hp (player (runExample drainedLow))
    - Qmin (player_kr (player (runExample drainedLow))) (0.08 * 16).
Proof.
  assert (0 < player_kr (player (runExample drainedLow))) as K
    by (apply Qltb_lt; vm_compute; reflexivity).
  split; [exact K|].
  exact (proj1 (proj1 (C5_corruption_drain_and_decay 16 (runExample drainedLow)) K)).
Defined.

(** With no other damage in the tick, the corruption drain takes hp from
    0.56 to -0.72. *)
Lemma C5_drain_goes_below_zero :
  0 < player_hp (player (runExample drainedLow)) /\
  player_hp (player (applyKR 16 (runExample drainedLow))) < 0 /\
  player_hp (player (collideBlasters (host := exampleHost) (collideBones
     (beforeCollisions (host := exampleHost) (startTick 16 (runExample drainedLow))))))
    == player_hp (player (runExample drainedLow)) /\
  player_hp (player (update (host := exampleHost) 16 (runExample drainedLow))) < 0.
Proof.
  split; [apply Qltb_lt; vm_compute; reflexivity|].
  split; [apply Qltb_lt; vm_compute; reflexivity|].
  split; [vm_compute; reflexivity|].
  apply Qltb_lt; vm_compute; reflexivity.
Qed.

(** ** C6 *)

Lemma C6_at_stallMenu :
  game_inMenu (game stallMenu) = true /\
  game_specialStall (game stallMenu) = true /\
  game_finished (game wonGame) = true.
Proof.
  assert (game_inMenu (game stallMenu) = true) as M by (vm_compute; reflexivity).
  assert (game_specialStall (game stallMenu) = true) as S by (vm_compute; reflexivity).
  split; [exact M|]. split; [exact S|].
  unfold wonGame.
  rewrite (proj1 (@C6_stall_menu_actions exampleHost "FIGHT" stallMenu M S)).
  vm_compute. reflexivity.
Defined.

(** In the stall, with the menu open and the finisher threshold passed,
    ACT is not ignored: the phase index goes from 9 to 10, the menu
    closes and the enclosure is rebuilt from scratch. *)
Lemma C6_act_is_not_ignored :
  game_specialStall (game stallMenu) = true /\
  game_inMenu (game stallMenu) = true /\
  8000 < stallTimer stallMenu /\
  game_phaseIndex (game stallMenu) = 9%Z /\
  length (bones stallMenu) = 68%nat /\
  game_phaseIndex (game (onMenuAction (host := exampleHost) "ACT" stallMenu)) = 10%Z /\
  game_inMenu (game (onMenuAction (host := exampleHost) "ACT" stallMenu)) = false /\
  bones (onMenuAction (host := exampleHost) "ACT" stallMenu) = cage.
Proof.
  split; [vm_compute; reflexivity|].
  split; [vm_compute; reflexivity|].
  split; [apply Qltb_lt; vm_compute; reflexivity|].
  repeat apply conj; vm_compute; reflexivity.
Qed.

(** ** C7 *)

(** C7 (the code departs from the claim). Idling in the stall at 32ms a
    frame, the idle timer passes 6000ms on frame 188; that frame spawns
    one Guarded bone, and so does every later frame: two after frame 189,
    three after frame 190, 64 when the menu reopens on frame 251.  The
    Neutral wall it was to replace is still there. *)
Theorem C7_guard_drop_repeats_every_frame :
  length (filter isBlue (bones (run (host := exampleHost) (ticks 187 32) stallStart))) = 0%nat /\
  length (filter isBlue (bones (run (host := exampleHost) (ticks 188 32) stallStart))) = 1%nat /\
  length (filter isBlue (bones (run (host := exampleHost) (ticks 189 32) stallStart))) = 2%nat /\
  length (filter isBlue (bones (run (host := exampleHost) (ticks 190 32) stallStart))) = 3%nat /\
  length (filter isBlue (bones stallMenu)) = 64%nat /\
  firstn 4 (bones stallMenu) = cage.
Proof.
  split; [vm_compute; reflexivity|].
  repeat apply conj; vm_compute; reflexivity.
Qed.

(** ** C8 *)

Lemma C8_at_jumpHeldInAir :
  game_running (game (runExample jumpHeldInAir)) = true /\
  game_introActive (game (runExample jumpHeldInAir)) = false /\
  String.eqb (game_soulColor (game (runExample jumpHeldInAir))) "red" = false /\
  player_moveThisFrame (player (update (host := exampleHost) 16 (runExample jumpHeldInAir))) =
  (key_left (runExample jumpHeldInAir) || key_right (runExample jumpHeldInAir) ||
   (key_up (runExample jumpHeldInAir) &&
    player_onGround (player (runExample jumpHeldInAir))))%bool.
Proof.
  assert (game_running (game (runExample jumpHeldInAir)) = true) as R
    by (vm_compute; reflexivity).
  assert (game_introActive (game (runExample jumpHeldInAir)) = false) as I
    by (vm_compute; reflexivity).
  assert (String.eqb (game_soulColor (game (runExample jumpHeldInAir))) "red" = false) as C
    by (vm_compute; reflexivity).
  split; [exact R|]. split; [exact I|]. split; [exact C|].
  exact (@C8_moved_flag_platforming exampleHost 16 (runExample jumpHeldInAir) R I C).
Defined.

(** The jump key is held during a tick in Platforming mode, the soul being
    in the air: [moveThisFrame] ends the tick false. *)
Lemma C8_jump_held_in_air_not_moved :
  game_soulColor (game (runExample jumpHeldInAir)) = "blue" /\
  key_up (runExample jumpHeldInAir) = true /\
  player_onGround (player (runExample jumpHeldInAir)) = false /\
  player_moveThisFrame (player (update (host := exampleHost) 16 (runExample jumpHeldInAir)))
    = false.
Proof.
  split; [vm_compute; reflexivity|].
  repeat apply conj; vm_compute; reflexivity.
Qed.

(** ** C9 *)

(** [update 0] just after the cold open is not a no-op: the frame counter
    goes from 0 to 1, the soul falls from y 360 to 360.28 and the first
    bone rises from y 420 to 417.5. *)
Lemma C9_zero_delta_is_a_tick :
  game_frame (game (runExample skipIntro)) = 0%Z /\
  game_frame (game (update (host := exampleHost) 0 (runExample skipIntro))) = 1%Z /\
  player_y (player (runExample skipIntro)) == 360 /\
  player_y (player (update (host := exampleHost) 0 (runExample skipIntro))) == 360.28 /\
  map bone_y (firstn 1 (bones (runExample skipIntro))) = [420] /\
  map bone_y (firstn 1 (bones (update (host := exampleHost) 0 (runExample skipIntro))))
    = [420 + -2.5].
Proof.
  split; [vm_compute; reflexivity|].
  repeat apply conj; vm_compute; reflexivity.
Qed.

(** * Further properties of the engine *)

(** Case analysis on the conditions of the code, innermost first. *)
Ltac split_conditions :=
  repeat match goal with
         | |- context [if ?c then _ else _] =>
             lazymatch c with
             | context [if _ then _ else _] => fail
             | _ => destruct c
             end
         end.

Section MoreProofs.

Context {host : MathHost}.

(** ** What the phase change leaves alone *)

Lemma nextAttack_game (s : State) :
  staticGame (game (nextAttack s)) = staticGame (game s) /\
  game_phaseIndex (game (nextAttack s)) = (game_phaseIndex (game s) + 1)%Z /\
  game_subphaseTime (game (nextAttack s)) = 0 /\
  (game_specialStall (game s) = true -> game_specialStall (game (nextAttack s)) = true).
Proof.
  unfold nextAttack. cbv zeta.
  cbn [game_specialStall game_phaseIndex game with_game with_player set_phaseIndex
       set_subphaseTime set_blasters set_bones].
  destruct (game_specialStall (game s)) eqn:S.
  - repeat apply conj; try reflexivity. intros _. exact S.
  - destruct (game_phaseIndex (game s)) as [|[[[q|q|]|[q|q|]|]|[[q|q|]|[q|q|]|]|]|q] eqn:P;
      repeat apply conj; try reflexivity; try discriminate;
      cbn; rewrite ?P; reflexivity.
Qed.

Lemma staticGame_fields (g g' : Game) :
  staticGame g' = staticGame g ->
  game_width g' = game_width g /\ game_height g' = game_height g /\
  game_frame g' = game_frame g /\ game_running g' = game_running g /\
  game_gravity g' = game_gravity g /\ game_soulColor g' = game_soulColor g /\
  game_inMenu g' = game_inMenu g /\ game_finished g' = game_finished g /\
  game_introActive g' = game_introActive g.
Proof.
  unfold staticGame. intro E. injection E as E1 E2 E3 E4 E5 E6 E7 E8 E9.
  repeat apply conj; assumption.
Qed.

Lemma advanceIntro_game (s : State) :
  game_running (game (advanceIntro s)) = game_running (game s) /\
  game_finished (game (advanceIntro s)) = game_finished (game s) /\
  game_specialStall (game (advanceIntro s)) = game_specialStall (game s) /\
  (game_introActive (game s) = false -> advanceIntro s = s).
Proof.
  unfold advanceIntro. destruct (game_introActive (game s)); cbn [negb].
  - cbv zeta. destruct (intro_timer s); destruct (Z.ltb _ _);
      repeat apply conj; try reflexivity; discriminate.
  - repeat apply conj; reflexivity.
Qed.

Lemma handleKeysDown_game (key : string) (repeat : bool) (s : State) :
  game_running (game (handleKeysDown key repeat s)) = game_running (game s) /\
  game_finished (game (handleKeysDown key repeat s)) = game_finished (game s) /\
  game_specialStall (game (handleKeysDown key repeat s)) = game_specialStall (game s).
Proof.
  unfold handleKeysDown. destruct repeat; [repeat apply conj; reflexivity|].
  destruct (_ && _)%bool.
  - destruct (advanceIntro_game s) as (E1 & E2 & E3 & _). now repeat apply conj.
  - cbv zeta. unfold keys_add. split_conditions; repeat apply conj; reflexivity.
Qed.

Lemma runCallback_game (cb : Callback) (s : State) :
  game_running (game (runCallback cb s)) = game_running (game s) /\
  game_finished (game (runCallback cb s)) = game_finished (game s) /\
  game_specialStall (game (runCallback cb s)) = game_specialStall (game s).
Proof.
  destruct cb; try (repeat apply conj; reflexivity).
  destruct (advanceIntro_game s) as (E1 & E2 & E3 & _). now repeat apply conj.
Qed.

Lemma fireTimer_game (id : nat) (s : State) :
  game_running (game (fireTimer id s)) = game_running (game s) /\
  game_finished (game (fireTimer id s)) = game_finished (game s) /\
  game_specialStall (game (fireTimer id s)) = game_specialStall (game s).
Proof.
  unfold fireTimer. destruct (find _ _) as [tm|]; [|repeat apply conj; reflexivity].
  destruct (runCallback_game (timer_callback tm) (clearTimeout (Some id) s))
    as (E1 & E2 & E3).
  rewrite E1, E2, E3. repeat apply conj; reflexivity.
Qed.

Lemma onMenuAction_cases (action : string) (s : State) :
  onMenuAction action s = s \/
  ((game_inMenu (game s) = true /\ finisherReady action s = true) /\
   onMenuAction action s =
   updateUI (with_game (set_running false) (with_game (set_finished true)
     (setDialogue "you swing while he sleeps. it's over." (leaveMenu s))))) \/
  (game_inMenu (game s) = true /\ finisherReady action s = false /\
   exists s', onMenuAction action s = nextAttack s' /\
              staticGame (game s') = staticGame (game (leaveMenu s)) /\
              game_specialStall (game s') = game_specialStall (game s) /\
              game_phaseIndex (game s') = game_phaseIndex (game s)).
Proof.
  unfold onMenuAction. destruct (game_inMenu (game s)) eqn:M; cbn [negb]; [|now left].
  destruct (finisherReady action s) eqn:F; [right; left; now repeat split|].
  destruct (String.eqb action "FIGHT").
  { right; right. repeat (split; trivial). eexists. repeat split. }
  destruct (String.eqb action "ACT").
  { right; right. repeat (split; trivial). eexists. repeat split. }
  destruct (String.eqb action "ITEM").
  { right; right. repeat (split; trivial). eexists. repeat split. }
  destruct (String.eqb action "MERCY").
  { right; right. repeat (split; trivial). eexists. repeat split. }
  now left.
Qed.

Lemma onMenuAction_flags (action : string) (s : State) :
  (game_running (game (onMenuAction action s)) = true -> game_running (game s) = true) /\
  (game_finished (game s) = true -> game_finished (game (onMenuAction action s)) = true) /\
  (game_specialStall (game s) = true ->
   game_specialStall (game (onMenuAction action s)) = true).
Proof.
  destruct (onMenuAction_cases action s) as [E|[[F E]|(M & F & s' & E & G & S & P)]];
    rewrite E.
  - repeat apply conj; trivial.
  - repeat apply conj; cbn; trivial; discriminate.
  - destruct (nextAttack_game s') as (G' & _ & _ & S').
    destruct (staticGame_fields _ _ G) as (_ & _ & _ & Gr & _ & _ & _ & Gf & _).
    destruct (staticGame_fields _ _ G') as (_ & _ & _ & Gr' & _ & _ & _ & Gf' & _).
    rewrite Gr', Gf', Gr, Gf. repeat apply conj; trivial.
    intro S0. apply S'. rewrite S. exact S0.
Qed.

(** A tick changes the game object in [running] and [inMenu] at most (and
    in the two counters [update] itself advances). *)
Lemma hurt_core (amount addKR : Q) (s : State) :
  coreGame (game (hurt amount addKR s)) = coreGame (game s).
Proof. unfold hurt. cbv zeta. split_conditions; reflexivity. Qed.

Lemma collideBone_core (b : Bone) (s : State) :
  coreGame (game (collideBone b s)) = coreGame (game s).
Proof.
  rewrite collideBone_spec. destruct (boneDamages _ _); [apply hurt_core|reflexivity].
Qed.

Lemma collideBlaster_core (g : Blaster) (s : State) :
  coreGame (game (collideBlaster g s)) = coreGame (game s).
Proof.
  destruct (collideBlaster_spec g s) as [E|E]; rewrite E; [reflexivity|apply hurt_core].
Qed.

Lemma applyKR_game (delta : Q) (s : State) : game (applyKR delta s) = game s.
Proof. unfold applyKR. split_conditions; reflexivity. Qed.

Lemma tryAllowStallEscape_game (delta : Q) (s : State) :
  game (tryAllowStallEscape delta s) = game s.
Proof. unfold tryAllowStallEscape. split_conditions; reflexivity. Qed.

Lemma offerFinisher_core (s : State) :
  coreGame (game (offerFinisher s)) = coreGame (game s).
Proof. unfold offerFinisher. split_conditions; reflexivity. Qed.

Lemma menuTiming_core (s : State) : coreGame (game (menuTiming s)) = coreGame (game s).
Proof. unfold menuTiming. split_conditions; reflexivity. Qed.

Lemma movePlayer_game (s : State) : game (movePlayer s) = game s.
Proof. unfold movePlayer. split_conditions; reflexivity. Qed.

Lemma clampToStage_game (s : State) : game (clampToStage s) = game s.
Proof. reflexivity. Qed.

Lemma updateUI_game (s : State) : game (updateUI s) = game s.
Proof. reflexivity. Qed.

Lemma beforeCollisions_core (s : State) :
  coreGame (game (beforeCollisions s)) = coreGame (game s).
Proof.
  unfold beforeCollisions.
  rewrite updateBlasters_game, updateBones_game, clampToStage_game, movePlayer_game.
  apply menuTiming_core.
Qed.

Lemma simulate_core (deltaMs : Q) (s : State) :
  coreGame (game (simulate deltaMs s)) = coreGame (game s).
Proof.
  rewrite simulate_unfold, updateUI_game, offerFinisher_core.
  rewrite tryAllowStallEscape_game, applyKR_game.
  unfold collideBlasters, collideBones.
  rewrite (for_each_preserves (fun s => coreGame (game s)) collideBlaster
             collideBlaster_core).
  rewrite (for_each_preserves (fun s => coreGame (game s)) collideBone
             collideBone_core).
  apply beforeCollisions_core.
Qed.

Lemma coreGame_fields (g g' : Game) :
  coreGame g' = coreGame g ->
  game_width g' = game_width g /\ game_height g' = game_height g /\
  game_frame g' = game_frame g /\ game_phaseIndex g' = game_phaseIndex g /\
  game_subphaseTime g' = game_subphaseTime g /\ game_gravity g' = game_gravity g /\
  game_soulColor g' = game_soulColor g /\
  game_specialStall g' = game_specialStall g /\
  game_finished g' = game_finished g /\ game_introActive g' = game_introActive g.
Proof.
  unfold coreGame. intro E. injection E as E1 E2 E3 E4 E5 E6 E7 E8 E9 E10.
  repeat apply conj; assumption.
Qed.

Lemma simulate_flags (deltaMs : Q) (s : State) :
  game_finished (game (simulate deltaMs s)) = game_finished (game s) /\
  game_specialStall (game (simulate deltaMs s)) = game_specialStall (game s).
Proof.
  destruct (coreGame_fields _ _ (simulate_core deltaMs s))
    as (_ & _ & _ & _ & _ & _ & _ & E1 & E2 & _).
  split; [exact E2 | exact E1].
Qed.

Lemma update_flags (deltaMs : Q) (s : State) :
  (game_running (game (update deltaMs s)) = true -> game_running (game s) = true) /\
  game_finished (game (update deltaMs s)) = game_finished (game s) /\
  game_specialStall (game (update deltaMs s)) = game_specialStall (game s).
Proof.
  unfold update. destruct (game_running (game s)) eqn:R; cbn [negb];
    [|repeat apply conj; try reflexivity; intro; congruence].
  cbv zeta. fold (startTick deltaMs s). destruct (game_introActive _).
  - repeat apply conj; try reflexivity; auto.
  - destruct (simulate_flags deltaMs (startTick deltaMs s)) as (E1 & E2).
    rewrite E1, E2. repeat apply conj; try reflexivity; auto.
Qed.

Lemma step_flags (s : State) (e : Event) :
  (game_running (game (step s e)) = true -> game_running (game s) = true) /\
  (game_finished (game s) = true -> game_finished (game (step s e)) = true) /\
  (game_specialStall (game s) = true -> game_specialStall (game (step s e)) = true).
Proof.
  destruct e as [d|k r|k|a|id]; cbn [step].
  - destruct (update_flags d s) as (E1 & E2 & E3). rewrite E2, E3. now repeat apply conj.
  - destruct (handleKeysDown_game k r s) as (E1 & E2 & E3). rewrite E1, E2, E3.
    now repeat apply conj.
  - repeat apply conj; trivial.
  - apply onMenuAction_flags.
  - destruct (fireTimer_game id s) as (E1 & E2 & E3). rewrite E1, E2, E3.
    now repeat apply conj.
Qed.

(** Once [game.running] is false (after a fatal hit or the finishing
    strike) no frame, key, click or timer sets it again, and every later
    [update] returns the state it was given. *)
Theorem stopped_game_stays_stopped (evs : list Event) (deltaMs : Q) (s : State) :
  game_running (game s) = false ->
  game_running (game (run evs s)) = false /\
  update deltaMs (run evs s) = run evs s.
Proof.
  intro R.
  assert (game_running (game (run evs s)) = false) as R'.
  { revert s R. unfold run. induction evs as [|e evs IH]; intros s R; [exact R|].
    cbn [fold_left]. apply IH.
    destruct (game_running (game (step s e))) eqn:E; [|reflexivity].
    apply (proj1 (step_flags s e)) in E. congruence. }
  split; [exact R'|now apply update_stopped].
Qed.

(** The stall and the win are both final: no event clears
    [game.specialStall] or [game.finished] once set. *)
Theorem stall_and_win_are_final (evs : list Event) (s : State) :
  (game_specialStall (game s) = true -> game_specialStall (game (run evs s)) = true) /\
  (game_finished (game s) = true -> game_finished (game (run evs s)) = true).
Proof.
  split; intro F; revert s F; unfold run;
    (induction evs as [|e evs IH]; intros s F; [exact F|]);
    cbn [fold_left]; apply IH; now apply step_flags.
Qed.

(** After the finishing strike the encounter is over for good: the game
    has stopped with the menu closed, so a second click on any button and
    any further [update] leave the state untouched. *)
Theorem finishing_strike_is_idempotent (action : string) (deltaMs : Q) (s : State) :
  game_inMenu (game s) = true ->
  finisherReady "FIGHT" s = true ->
  game_finished (game (onMenuAction "FIGHT" s)) = true /\
  game_running (game (onMenuAction "FIGHT" s)) = false /\
  onMenuAction action (onMenuAction "FIGHT" s) = onMenuAction "FIGHT" s /\
  update deltaMs (onMenuAction "FIGHT" s) = onMenuAction "FIGHT" s /\
  vitals (onMenuAction "FIGHT" s) = vitals s.
Proof.
  intros M F.
  assert (onMenuAction "FIGHT" s =
          updateUI (with_game (set_running false) (with_game (set_finished true)
            (setDialogue "you swing while he sleeps. it's over." (leaveMenu s))))) as E
    by (unfold onMenuAction; now rewrite M, F).
  rewrite E. repeat apply conj; reflexivity.
Qed.

(** ** Geometry *)

(** [rectsOverlap] does not depend on the order of the two rectangles,
    holds of a rectangle of positive size with itself, and is strict:
    rectangles that only share an edge do not overlap. *)
Theorem rectsOverlap_symmetric_and_strict (ax ay aw ah bx by_ bw bh : Q) :
  rectsOverlap ax ay aw ah bx by_ bw bh = rectsOverlap bx by_ bw bh ax ay aw ah /\
  (0 < aw -> 0 < ah -> rectsOverlap ax ay aw ah ax ay aw ah = true) /\
  rectsOverlap ax ay aw ah (ax + aw) by_ bw bh = false /\
  rectsOverlap ax ay aw ah bx (ay + ah) bw bh = false.
Proof.
  unfold rectsOverlap, Qgtb. repeat apply conj.
  - destruct (Qltb ax (bx + bw)), (Qltb bx (ax + aw)), (Qltb ay (by_ + bh)),
      (Qltb by_ (ay + ah)); reflexivity.
  - intros W Hh.
    assert (Qltb ax (ax + aw) = true) as E1 by (apply Qltb_lt; lra).
    assert (Qltb ay (ay + ah) = true) as E2 by (apply Qltb_lt; lra).
    now rewrite E1, E2.
  - assert (Qltb (ax + aw) (ax + aw) = false) as E by (apply Qltb_ge; lra).
    rewrite E. now rewrite andb_false_r.
  - assert (Qltb (ay + ah) (ay + ah) = false) as E by (apply Qltb_ge; lra).
    rewrite E. now rewrite andb_false_r.
Qed.

(** ** Corruption over several ticks *)

Lemma applyKR_kr_nonneg (delta : Q) (s : State) :
  0 <= player_kr (player s) -> 0 <= player_kr (player (applyKR delta s)).
Proof.
  intro K. destruct (Qlt_le_dec 0 (player_kr (player s))) as [L|L].
  - destruct (applyKR_active delta s L) as (_ & E & _). rewrite E.
    destruct (Qmax_cases 0 (player_kr (player s) - 0.02 * delta)) as [[? E']|[? E']];
      rewrite E'; lra.
  - now rewrite (applyKR_idle delta s L).
Qed.



(** ** The soul stays on the stage *)


Lemma hurt_soulBox (amount addKR : Q) (s : State) :
  soulBox (player (hurt amount addKR s)) = soulBox (player s).
Proof. unfold hurt. cbv zeta. split_conditions; reflexivity. Qed.

Lemma collideBone_soulBox (b : Bone) (s : State) :
  soulBox (player (collideBone b s)) = soulBox (player s).
Proof.
  rewrite collideBone_spec. destruct (boneDamages _ _); [apply hurt_soulBox|reflexivity].
Qed.

Lemma collideBlaster_soulBox (g : Blaster) (s : State) :
  soulBox (player (collideBlaster g s)) = soulBox (player s).
Proof.
  destruct (collideBlaster_spec g s) as [E|E]; rewrite E;
    [reflexivity|apply hurt_soulBox].
Qed.

Lemma applyKR_soulBox (delta : Q) (s : State) :
  soulBox (player (applyKR delta s)) = soulBox (player s).
Proof. unfold applyKR. split_conditions; reflexivity. Qed.

Lemma simulate_soulBox (deltaMs : Q) (s : State) :
  soulBox (player (simulate deltaMs s)) =
  soulBox (player (clampToStage (movePlayer (menuTiming s)))).
Proof.
  rewrite simulate_unfold, updateUI_player, offerFinisher_player.
  rewrite tryAllowStallEscape_player, applyKR_soulBox.
  unfold collideBlasters, collideBones.
  rewrite (for_each_preserves (fun s => soulBox (player s)) collideBlaster
             collideBlaster_soulBox).
  rewrite (for_each_preserves (fun s => soulBox (player s)) collideBone
             collideBone_soulBox).
  unfold beforeCollisions. now rewrite updateBlasters_player, updateBones_player.
Qed.

Lemma moveRed_size (left right up down : bool) (p : Player) :
  player_width (moveRed left right up down p) = player_width p /\
  player_height (moveRed left right up down p) = player_height p.
Proof. destruct left, right, up, down; split; reflexivity. Qed.

Lemma moveBlue_size (gravity : Q) (left right up : bool) (p : Player) :
  player_width (moveBlue gravity left right up p) = player_width p /\
  player_height (moveBlue gravity left right up p) = player_height p.
Proof.
  unfold moveBlue. destruct p as [x y vx vy w h sp jp og mv hp hm kr].
  destruct left, right, up, og; cbn; split_conditions; split; reflexivity.
Qed.

Lemma movePlayer_size (s : State) :
  player_width (player (movePlayer s)) = player_width (player s) /\
  player_height (player (movePlayer s)) = player_height (player s).
Proof.
  unfold movePlayer. cbv zeta. destruct (String.eqb _ "red");
    unfold with_player; cbn [player].
  - match goal with
    | |- player_width (moveRed ?l ?r ?u ?d ?p) = _ /\ _ =>
        destruct (moveRed_size l r u d p) as (E1 & E2)
    end.
    rewrite E1, E2. split; reflexivity.
  - match goal with
    | |- player_width (moveBlue ?g ?l ?r ?u ?p) = _ /\ _ =>
        destruct (moveBlue_size g l r u p) as (E1 & E2)
    end.
    rewrite E1, E2. split; reflexivity.
Qed.

Lemma soulBox_fields (p p' : Player) :
  soulBox p' = soulBox p ->
  player_x p' = player_x p /\ player_y p' = player_y p /\
  player_width p' = player_width p /\ player_height p' = player_height p.
Proof.
  unfold soulBox. intro E. injection E as E1 E2 E3 E4. repeat apply conj; assumption.
Qed.

Lemma clampToStage_bounds (s : State) :
  40 + player_width (player s) <= game_width (game s) ->
  40 + player_height (player s) <= game_height (game s) ->
  player_width (player (clampToStage s)) = player_width (player s) /\
  player_height (player (clampToStage s)) = player_height (player s) /\
  20 <= player_x (player (clampToStage s)) /\
  player_x (player (clampToStage s)) <= game_width (game s) - 20 - player_width (player s) /\
  20 <= player_y (player (clampToStage s)) /\
  player_y (player (clampToStage s)) <= game_height (game s) - 20 - player_height (player s).
Proof.
  intros W Hh. unfold clampToStage. cbv zeta. unfold with_player.
  cbn [player player_x player_y player_width player_height set_x set_y game].
  destruct (Qmin_cases (game_width (game s) - 20 - player_width (player s))
              (player_x (player s))) as [[? E1]|[? E1]];
  destruct (Qmin_cases (game_height (game s) - 20 - player_height (player s))
              (player_y (player s))) as [[? E2]|[? E2]];
  destruct (Qmax_cases 20 (Qmin (game_width (game s) - 20 - player_width (player s))
              (player_x (player s)))) as [[? E3]|[? E3]];
  destruct (Qmax_cases 20 (Qmin (game_height (game s) - 20 - player_height (player s))
              (player_y (player s)))) as [[? E4]|[? E4]];
    rewrite E3, E4; rewrite ?E1, ?E2 in *; repeat apply conj; try reflexivity; lra.
Qed.

(** After every simulated tick the soul's rectangle lies inside the stage
    with a margin of 20 on each side, provided the stage is large enough
    to hold it.  Gravity, held keys, pattern nudges and elapsed time do not
    matter. *)
Theorem soul_stays_on_stage (deltaMs : Q) (s : State) :
  game_running (game s) = true ->
  game_introActive (game s) = false ->
  40 + player_width (player s) <= game_width (game s) ->
  40 + player_height (player s) <= game_height (game s) ->
  20 <= player_x (player (update deltaMs s)) /\
  player_x (player (update deltaMs s)) + player_width (player (update deltaMs s))
    <= game_width (game s) - 20 /\
  20 <= player_y (player (update deltaMs s)) /\
  player_y (player (update deltaMs s)) + player_height (player (update deltaMs s))
    <= game_height (game s) - 20.
Proof.
  intros R I W Hh. rewrite update_running by assumption.
  destruct (soulBox_fields _ _ (simulate_soulBox deltaMs (startTick deltaMs s)))
    as (Ex & Ey & Ew & Eh).
  rewrite Ex, Ey, Ew, Eh. clear Ex Ey Ew Eh.
  set (m := movePlayer (menuTiming (startTick deltaMs s))).
  assert (game_width (game m) = game_width (game s)) as Gw.
  { unfold m. rewrite movePlayer_game.
    exact (proj1 (coreGame_fields _ _ (menuTiming_core (startTick deltaMs s)))). }
  assert (game_height (game m) = game_height (game s)) as Gh.
  { unfold m. rewrite movePlayer_game.
    exact (proj1 (proj2 (coreGame_fields _ _ (menuTiming_core (startTick deltaMs s))))). }
  assert (player_width (player m) = player_width (player s)) as Pw.
  { unfold m. rewrite (proj1 (movePlayer_size _)). now rewrite menuTiming_player. }
  assert (player_height (player m) = player_height (player s)) as Ph.
  { unfold m. rewrite (proj2 (movePlayer_size _)). now rewrite menuTiming_player. }
  destruct (clampToStage_bounds m) as (B1 & B2 & B3 & B4 & B5 & B6).
  { rewrite Gw, Pw. exact W. }
  { rewrite Gh, Ph. exact Hh. }
  rewrite B1, B2. rewrite Gw, Pw in B4. rewrite Gh, Ph in B6. rewrite Pw, Ph.
  repeat apply conj; lra.
Qed.

(** ** hp only goes up at the ITEM button *)


Lemma hurt_boundedHp (h0 amount addKR : Q) (s : State) :
  0 <= amount -> 0 <= addKR -> boundedHp h0 s -> boundedHp h0 (hurt amount addKR s).
Proof.
  intros A K (L & L0). unfold boundedHp. rewrite hurt_hp, hurt_kr.
  destruct (Qmin_cases 60 (player_kr (player s) + addKR)) as [[? E]|[? E]];
    rewrite E; split; lra.
Qed.

Lemma applyKR_boundedHp (h0 delta : Q) (s : State) :
  0 <= delta -> boundedHp h0 s -> boundedHp h0 (applyKR delta s).
Proof.
  intros D (L & L0). split; [|now apply applyKR_kr_nonneg].
  destruct (Qlt_le_dec 0 (player_kr (player s))) as [K|K].
  - destruct (applyKR_active delta s K) as (E & _). rewrite E.
    destruct (Qmin_cases (player_kr (player s)) (0.08 * delta)) as [[? E']|[? E']];
      rewrite E'; lra.
  - now rewrite (applyKR_idle delta s K).
Qed.

Lemma simulate_boundedHp (h0 deltaMs : Q) (s : State) :
  0 <= deltaMs -> boundedHp h0 s -> boundedHp h0 (simulate deltaMs s).
Proof.
  intros D B. rewrite simulate_unfold. unfold boundedHp.
  rewrite updateUI_player, offerFinisher_player, tryAllowStallEscape_player.
  apply applyKR_boundedHp; [exact D|].
  apply (for_each_invariant (boundedHp h0) collideBlaster).
  { intros g st Hst. destruct (collideBlaster_spec g st) as [E|E]; rewrite E;
      [exact Hst | apply hurt_boundedHp; trivial; lra]. }
  apply (for_each_invariant (boundedHp h0) collideBone).
  { intros b st Hst. rewrite collideBone_spec.
    destruct (boneDamages _ _); [apply hurt_boundedHp; trivial; lra | exact Hst]. }
  pose proof (beforeCollisions_vitals s) as E. unfold vitals in E.
  unfold boundedHp. destruct B as (B1 & B2).
  assert (player_hp (player (beforeCollisions s)) = player_hp (player s)) as E1
    by congruence.
  assert (player_kr (player (beforeCollisions s)) = player_kr (player s)) as E2
    by congruence.
  rewrite E1, E2. now split.
Qed.

Lemma onMenuAction_other_vitals (action : string) (s : State) :
  action <> "ITEM" -> vitals (onMenuAction action s) = vitals s.
Proof.
  intro N. apply String.eqb_neq in N. unfold onMenuAction.
  destruct (negb _); [reflexivity|].
  destruct (finisherReady _ _); [reflexivity|].
  destruct (String.eqb action "FIGHT"); [now rewrite nextAttack_vitals|].
  destruct (String.eqb action "ACT"); [now rewrite nextAttack_vitals|].
  rewrite N.
  destruct (String.eqb action "MERCY"); [now rewrite nextAttack_vitals|].
  reflexivity.
Qed.

(** Apart from a click on ITEM, no event raises hp: frames (with a
    non-negative elapsed time), keys, timers and the other buttons leave
    it where it is or lower it.  ITEM, when the menu is open, heals by 18
    and stops at hpMax. *)
Theorem hp_rises_only_at_item (s : State) (e : Event) :
  forwardInTime e ->
  0 <= player_kr (player s) ->
  (e <> EvClick "ITEM" -> player_hp (player (step s e)) <= player_hp (player s)) /\
  (game_inMenu (game s) = true ->
   player_hp (player (onMenuAction "ITEM" s)) =
   Qmin (player_hpMax (player s)) (player_hp (player s) + 18)).
Proof.
  intros F K. split.
  - intro N. destruct e as [d|k r|k|a|id]; cbn [step].
    + cbn in F. unfold update. destruct (game_running (game s)); cbn [negb]; [|lra].
      cbv zeta. fold (startTick d s). destruct (game_introActive _); [cbn; lra|].
      apply (simulate_boundedHp (player_hp (player s)) d (startTick d s) F).
      split; [cbn; lra | exact K].
    + pose proof (handleKeysDown_vitals k r s) as E. unfold vitals in E.
      assert (player_hp (player (handleKeysDown k r s)) = player_hp (player s)) as E1
        by congruence.
      rewrite E1. lra.
    + cbn. lra.
    + assert (a <> "ITEM") as Na by (intro; subst; now apply N).
      pose proof (onMenuAction_other_vitals a s Na) as E. unfold vitals in E.
      assert (player_hp (player (onMenuAction a s)) = player_hp (player s)) as E1
        by congruence.
      rewrite E1. lra.
    + pose proof (fireTimer_vitals id s) as E. unfold vitals in E.
      assert (player_hp (player (fireTimer id s)) = player_hp (player s)) as E1
        by congruence.
      rewrite E1. lra.
  - intro M. unfold onMenuAction. rewrite M. cbn [negb].
    unfold finisherReady. cbn [String.eqb Ascii.eqb Bool.eqb].
    rewrite !andb_false_r. cbn [andb]. cbv zeta.
    pose proof (nextAttack_vitals
      (leaveMenu (setDialogue "you use a healing item."
         (with_player (fun p => set_hp (Qmin (player_hpMax p) (player_hp p + 18)) p) s))))
      as E.
    unfold vitals in E.
    match type of E with
    | (?a, _, _) = (?b, _, _) => assert (a = b) as E1 by congruence
    end.
    rewrite E1. reflexivity.
Qed.

(** ** The set of held keys *)

Lemma keys_has_delete (k k' : string) (s : State) :
  keys_has k (keys_delete k' s) = (negb (String.eqb k' k) && keys_has k s)%bool.
Proof.
  unfold keys_has, keys_delete. cbn [keys set_keys].
  induction (keys s) as [|x l IH]; [now rewrite andb_false_r|].
  cbn [filter existsb].
  destruct (String.eqb k' x) eqn:Ex; cbn [negb].
  - rewrite IH. apply String.eqb_eq in Ex. subst x.
    destruct (String.eqb k k') eqn:Ek.
    + apply String.eqb_eq in Ek. subst k'. rewrite String.eqb_refl. reflexivity.
    + reflexivity.
  - cbn [existsb]. rewrite IH.
    destruct (String.eqb k x) eqn:Ek; [|reflexivity].
    apply String.eqb_eq in Ek. subst x. rewrite Ex. reflexivity.
Qed.

Lemma keys_has_add (k k' : string) (s : State) :
  keys_has k (keys_add k' s) = (String.eqb k k' || keys_has k s)%bool.
Proof.
  unfold keys_add. destruct (keys_has k' s) eqn:Hk'.
  - destruct (String.eqb k k') eqn:Ek; [|reflexivity].
    apply String.eqb_eq in Ek. subst k'. now rewrite Hk'.
  - unfold keys_has. cbn [keys set_keys]. rewrite existsb_app. cbn [existsb].
    rewrite orb_false_r. apply orb_comm.
Qed.

(** The held-keys set works on lower-cased key names.  A key press that is
    not an auto-repeat and not swallowed by the intro marks the key as
    held; a release of the same key in either case unmarks it; no other
    key is affected by either; an auto-repeat changes nothing at all. *)
Theorem held_keys_round_trip (key other : string) (s : State) :
  game_introActive (game s) = false ->
  keys_has (toLowerCase key) (handleKeysDown key false s) = true /\
  keys_has (toLowerCase key) (handleKeysUp key (handleKeysDown key false s)) = false /\
  (other <> toLowerCase key ->
   keys_has other (handleKeysDown key false s) = keys_has other s /\
   keys_has other (handleKeysUp key s) = keys_has other s) /\
  handleKeysDown key true s = s.
Proof.
  intro I.
  assert (forall k, keys_has k (handleKeysDown key false s) =
                    (String.eqb k (toLowerCase key) || keys_has k s)%bool) as Hd.
  { intro k. unfold handleKeysDown. rewrite I. cbn [andb]. cbv zeta.
    destruct (_ || _)%bool; [|apply keys_has_add].
    transitivity (keys_has k (keys_add (toLowerCase key) s)); [reflexivity|].
    apply keys_has_add. }
  repeat apply conj.
  - rewrite Hd, String.eqb_refl. reflexivity.
  - unfold handleKeysUp. rewrite keys_has_delete, String.eqb_refl. reflexivity.
  - intro N. split.
    + rewrite Hd. apply String.eqb_neq in N. now rewrite N.
    + unfold handleKeysUp. rewrite keys_has_delete.
      assert (String.eqb (toLowerCase key) other = false) as E
        by (apply String.eqb_neq; congruence).
      now rewrite E.
  - reflexivity.
Qed.

(** ** Entities during a tick *)


Lemma hurt_entities (amount addKR : Q) (s : State) :
  entities (hurt amount addKR s) = entities s.
Proof. unfold hurt. cbv zeta. split_conditions; reflexivity. Qed.

Lemma collideBone_entities (b : Bone) (s : State) :
  entities (collideBone b s) = entities s.
Proof.
  rewrite collideBone_spec. destruct (boneDamages _ _); [apply hurt_entities|reflexivity].
Qed.

Lemma collideBlaster_entities (g : Blaster) (s : State) :
  entities (collideBlaster g s) = entities s.
Proof.
  destruct (collideBlaster_spec g s) as [E|E]; rewrite E;
    [reflexivity|apply hurt_entities].
Qed.

Lemma applyKR_entities (delta : Q) (s : State) :
  entities (applyKR delta s) = entities s.
Proof. unfold applyKR. split_conditions; reflexivity. Qed.

Lemma offerFinisher_entities (s : State) : entities (offerFinisher s) = entities s.
Proof. unfold offerFinisher. split_conditions; reflexivity. Qed.

Lemma tryAllowStallEscape_blasters (delta : Q) (s : State) :
  blasters (tryAllowStallEscape delta s) = blasters s.
Proof. unfold tryAllowStallEscape. split_conditions; reflexivity. Qed.

Lemma tryAllowStallEscape_outside_stall (delta : Q) (s : State) :
  game_specialStall (game s) = false -> tryAllowStallEscape delta s = s.
Proof. intro S. unfold tryAllowStallEscape. now rewrite S. Qed.

Lemma menuTiming_entities (s : State) : entities (menuTiming s) = entities s.
Proof. unfold menuTiming. split_conditions; reflexivity. Qed.

Lemma movePlayer_entities (s : State) : entities (movePlayer s) = entities s.
Proof. unfold movePlayer. split_conditions; reflexivity. Qed.

Lemma updateUI_entities (s : State) : entities (updateUI s) = entities s.
Proof. reflexivity. Qed.

Lemma startTick_entities (deltaMs : Q) (s : State) :
  entities (startTick deltaMs s) = entities s.
Proof. reflexivity. Qed.

Lemma entities_fields (s s' : State) :
  entities s' = entities s -> bones s' = bones s /\ blasters s' = blasters s.
Proof. unfold entities. intro E. injection E as E1 E2. now split. Qed.

Lemma boneOffscreen_ext (g g' : Game) (b : Bone) :
  game_width g' = game_width g -> game_height g' = game_height g ->
  boneOffscreen g' b = boneOffscreen g b.
Proof. intros W Hh. unfold boneOffscreen. now rewrite W, Hh. Qed.

Lemma afterCollisions_entities (deltaMs : Q) (s : State) :
  entities (applyKR deltaMs (collideBlasters (collideBones s))) = entities s.
Proof.
  rewrite applyKR_entities. unfold collideBlasters, collideBones.
  rewrite (for_each_preserves entities collideBlaster collideBlaster_entities).
  apply (for_each_preserves entities collideBone collideBone_entities).
Qed.

Lemma beforeCollisions_entities (s : State) :
  blasters (beforeCollisions s) =
    filter (fun g => negb (blaster_life g <=? 0)%Z) (map ageBlaster (blasters s)) /\
  bones (beforeCollisions s) =
    filter (fun b => negb (boneOffscreen (game s) b)) (map advanceBone (bones s)).
Proof.
  unfold beforeCollisions.
  set (m := clampToStage (movePlayer (menuTiming s))).
  assert (bones m = bones s /\ blasters m = blasters s) as (Eb & Eg).
  { apply entities_fields. unfold m.
    transitivity (entities (movePlayer (menuTiming s))); [reflexivity|].
    now rewrite movePlayer_entities, menuTiming_entities. }
  assert (game_width (game m) = game_width (game s) /\
          game_height (game m) = game_height (game s)) as (Gw & Gh).
  { unfold m. rewrite clampToStage_game, movePlayer_game.
    destruct (coreGame_fields _ _ (menuTiming_core s)) as (E1 & E2 & _). now split. }
  split.
  - unfold updateBlasters, updateBones. cbv zeta.
    cbn [blasters set_blasters set_bones]. now rewrite Eg.
  - unfold updateBlasters, updateBones. cbv zeta.
    cbn [bones blasters set_blasters set_bones game]. rewrite Eb.
    apply filter_ext. intro b. f_equal. now apply boneOffscreen_ext.
Qed.

Lemma update_blasters (deltaMs : Q) (s : State) :
  game_running (game s) = true ->
  game_introActive (game s) = false ->
  blasters (update deltaMs s) =
    filter (fun g => negb (blaster_life g <=? 0)%Z) (map ageBlaster (blasters s)).
Proof.
  intros R I. rewrite update_running by assumption. rewrite simulate_unfold.
  destruct (beforeCollisions_entities (startTick deltaMs s)) as (Bg & _).
  destruct (entities_fields _ _
              (afterCollisions_entities deltaMs (beforeCollisions (startTick deltaMs s))))
    as (_ & Cg).
  destruct (entities_fields _ _ (startTick_entities deltaMs s)) as (_ & Tg).
  rewrite (proj2 (entities_fields _ _ (updateUI_entities _))).
  rewrite (proj2 (entities_fields _ _ (offerFinisher_entities _))).
  rewrite tryAllowStallEscape_blasters, Cg, Bg, Tg. reflexivity.
Qed.

(** A tick never creates, reorders or edits entities beyond the scripted
    advance: the blasters after [update] are the old ones aged by one with
    the expired ones dropped, and outside the stall the bones are the old
    ones moved by their velocity with the off-stage ones dropped.
    Collision checks only read them. *)
Theorem tick_only_advances_and_culls (deltaMs : Q) (s : State) :
  game_running (game s) = true ->
  game_introActive (game s) = false ->
  blasters (update deltaMs s) =
    filter (fun g => negb (blaster_life g <=? 0)%Z) (map ageBlaster (blasters s)) /\
  (game_specialStall (game s) = false ->
   bones (update deltaMs s) =
     filter (fun b => negb (boneOffscreen (game s) b)) (map advanceBone (bones s))).
Proof.
  intros R I. split; [exact (update_blasters deltaMs s R I)|].
  rewrite update_running by assumption. rewrite simulate_unfold.
  destruct (beforeCollisions_entities (startTick deltaMs s)) as (Bg & Bb).
  destruct (entities_fields _ _
              (afterCollisions_entities deltaMs (beforeCollisions (startTick deltaMs s))))
    as (Cb & Cg).
  destruct (entities_fields _ _ (startTick_entities deltaMs s)) as (Tb & Tg).
  - intro S.
    rewrite (proj1 (entities_fields _ _ (updateUI_entities _))).
    rewrite (proj1 (entities_fields _ _ (offerFinisher_entities _))).
    rewrite tryAllowStallEscape_outside_stall.
    + rewrite Cb, Bb, Tb. apply filter_ext. intro b. reflexivity.
    + rewrite applyKR_game.
      assert (coreGame (game (collideBlasters (collideBones
                (beforeCollisions (startTick deltaMs s))))) =
              coreGame (game (startTick deltaMs s))) as E.
      { unfold collideBlasters, collideBones.
        rewrite (for_each_preserves (fun s => coreGame (game s)) collideBlaster
                   collideBlaster_core).
        rewrite (for_each_preserves (fun s => coreGame (game s)) collideBone
                   collideBone_core).
        apply beforeCollisions_core. }
      destruct (coreGame_fields _ _ E) as (_ & _ & _ & _ & _ & _ & _ & E8 & _).
      rewrite E8. exact S.
Qed.

(** ** Blasters in reachable states *)


Lemma spawnBlaster_fresh (x y angle : Q) (s : State) :
  Forall freshOrAging (blasters s) ->
  Forall freshOrAging (blasters (spawnBlaster x y angle s)).
Proof.
  intro F. unfold spawnBlaster. cbn [blasters set_blasters].
  apply Forall_app. split; [exact F|].
  constructor; [|constructor]. unfold freshOrAging. cbn. repeat split; lia.
Qed.

Lemma aged_fresh (l : list Blaster) :
  Forall freshOrAging l ->
  Forall freshOrAging
    (filter (fun g => negb (blaster_life g <=? 0)%Z) (map ageBlaster l)).
Proof.
  intro F. induction F as [|g l (L & C & Fi) F IH]; [constructor|].
  cbn [map filter]. destruct (negb _) eqn:A; [|exact IH].
  constructor; [|exact IH].
  apply negb_true_iff, Z.leb_gt in A. cbn in A.
  unfold freshOrAging. cbn. repeat split; try assumption; lia.
Qed.

Lemma advanceIntro_blasters (s : State) : blasters (advanceIntro s) = blasters s.
Proof.
  unfold advanceIntro. destruct (negb _); [reflexivity|]. cbv zeta.
  destruct (intro_timer s); destruct (Z.ltb _ _); reflexivity.
Qed.

Lemma handleKeysDown_blasters (key : string) (repeat : bool) (s : State) :
  blasters (handleKeysDown key repeat s) = blasters s.
Proof.
  unfold handleKeysDown. destruct repeat; [reflexivity|].
  destruct (_ && _)%bool; [apply advanceIntro_blasters|]. cbv zeta.
  unfold keys_add. split_conditions; reflexivity.
Qed.

Lemma nextAttack_blasters (s : State) : blasters (nextAttack s) = [].
Proof.
  unfold nextAttack. cbv zeta.
  destruct (game_specialStall _); [reflexivity|].
  lazymatch goal with
  | |- context [match ?p with Z0 => _ | Zpos _ => _ | Zneg _ => _ end] =>
      destruct p as [|[[[q|q|]|[q|q|]|]|[[q|q|]|[q|q|]|]|]|q]
  end; reflexivity.
Qed.

Lemma onMenuAction_blasters (action : string) (s : State) :
  blasters (onMenuAction action s) = blasters s \/ blasters (onMenuAction action s) = [].
Proof.
  destruct (onMenuAction_cases action s) as [E|[[F E]|(M & F & s' & E & _)]]; rewrite E.
  - now left.
  - now left.
  - right. apply nextAttack_blasters.
Qed.

Lemma runCallback_fresh (cb : Callback) (s : State) :
  Forall freshOrAging (blasters s) -> Forall freshOrAging (blasters (runCallback cb s)).
Proof.
  intro F. destruct cb; cbn [runCallback]; try exact F.
  - now rewrite advanceIntro_blasters.
  - now apply spawnBlaster_fresh.
  - now apply spawnBlaster_fresh, spawnBlaster_fresh.
  - unfold gauntletVolley. cbv zeta.
    change (Forall freshOrAging (blasters (spawnBlaster 320 0 (Math_PI / 2) s))).
    now apply spawnBlaster_fresh.
Qed.

Lemma update_intro_entities (deltaMs : Q) (s : State) :
  game_running (game s) = true ->
  game_introActive (game s) = true ->
  update deltaMs s = updateUI (startTick deltaMs s).
Proof.
  intros R I. unfold update. rewrite R. cbn [negb]. cbv zeta.
  cbn [game_introActive game with_game set_subphaseTime set_frame].
  now rewrite I.
Qed.

Lemma step_fresh (s : State) (e : Event) :
  Forall freshOrAging (blasters s) -> Forall freshOrAging (blasters (step s e)).
Proof.
  intro F. destruct e as [d|k r|k|a|id]; cbn [step].
  - destruct (game_running (game s)) eqn:R; [|now rewrite update_stopped].
    destruct (game_introActive (game s)) eqn:I.
    + rewrite (update_intro_entities d s R I). exact F.
    + rewrite (update_blasters d s R I). now apply aged_fresh.
  - now rewrite handleKeysDown_blasters.
  - exact F.
  - destruct (onMenuAction_blasters a s) as [E|E]; rewrite E; [exact F|constructor].
  - unfold fireTimer. destruct (find _ _); [|exact F].
    apply runCallback_fresh. destruct (Some id); exact F.
Qed.

(** In every state reachable from start-up, each blaster has between 1 and
    70 frames of life left and carries the constants it was spawned with:
    an expired blaster never reaches a collision check, and none lives
    longer than 70 frames. *)
Theorem blasters_live_1_to_70 (w h : Q) (evs : list Event) :
  Forall freshOrAging (blasters (run evs (boot w h))).
Proof.
  unfold run. assert (Forall freshOrAging (blasters (boot w h))) as B by constructor.
  revert B. generalize (boot w h).
  induction evs as [|e evs IH]; intros s B; [exact B|].
  cbn [fold_left]. apply IH. now apply step_fresh.
Qed.

(** ** The intro and the phase counter *)



Lemma clearTimeout_quiet (t : option nat) (s : State) :
  introQuiet s -> introQuiet (clearTimeout t s).
Proof.
  intros (P & M & B & G & V & I & D & T). destruct t as [id|]; [|now repeat split].
  unfold introQuiet. cbn. repeat split; try assumption; try lia.
  apply Forall_forall. intros tm Hin. apply filter_In in Hin.
  rewrite Forall_forall in T. now apply T.
Qed.

Lemma clearTimeout_introActive (t : option nat) (s : State) :
  game (clearTimeout t s) = game s.
Proof. destruct t; reflexivity. Qed.

Lemma advanceIntro_quiet (s : State) :
  introQuiet s -> game_introActive (game (advanceIntro s)) = true ->
  introQuiet (advanceIntro s).
Proof.
  intros Q. unfold advanceIntro.
  destruct (game_introActive (game s)) eqn:I; cbn [negb]; [|intros _; exact Q].
  cbv zeta.
  pose proof (clearTimeout_quiet (intro_timer s) s Q) as (P & M & B & G & V & Ix & D & T).
  set (c := clearTimeout (intro_timer s) s) in *.
  cbn [intro_idx set_intro_idx].
  destruct (Z.ltb (intro_idx c + 1) (Z.of_nat (length intro_lines))) eqn:L.
  - intros _. apply Z.ltb_lt in L. cbn in L.
    unfold introQuiet. cbn. repeat split; try assumption; try lia.
    apply Forall_app. split; [exact T|]. constructor; [reflexivity|constructor].
  - cbn. discriminate.
Qed.

Lemma advanceIntro_phase (s : State) :
  game_introActive (game s) = true ->
  game_phaseIndex (game (advanceIntro s)) = game_phaseIndex (game s) \/
  game_phaseIndex (game (advanceIntro s)) = 0%Z.
Proof.
  intro I. unfold advanceIntro. rewrite I. cbn [negb]. cbv zeta.
  destruct (intro_timer s); destruct (Z.ltb _ _); (now left) || (now right).
Qed.

Lemma handleKeysDown_cases (key : string) (repeat : bool) (s : State) :
  handleKeysDown key repeat s = advanceIntro s \/
  (game (handleKeysDown key repeat s) = game s \/
   exists c, game (handleKeysDown key repeat s) = set_soulColor c (game s)) /\
  bones (handleKeysDown key repeat s) = bones s /\
  blasters (handleKeysDown key repeat s) = blasters s /\
  vitals (handleKeysDown key repeat s) = vitals s /\
  intro_idx (handleKeysDown key repeat s) = intro_idx s /\
  dialogue (handleKeysDown key repeat s) = dialogue s /\
  timers (handleKeysDown key repeat s) = timers s.
Proof.
  unfold handleKeysDown. destruct repeat; [right; repeat split; now left|].
  destruct (_ && _)%bool; [now left|]. right. cbv zeta.
  unfold keys_add. split_conditions; repeat split; (now left) || (right; eexists; reflexivity).
Qed.

Lemma runCallback_cases (cb : Callback) (s : State) :
  runCallback cb s = advanceIntro s \/ cb <> CbAdvanceIntro.
Proof. destruct cb; (now left) || (right; discriminate). Qed.

Lemma runCallback_introActive (cb : Callback) (s : State) :
  cb <> CbAdvanceIntro ->
  game_introActive (game (runCallback cb s)) = game_introActive (game s) /\
  (game_phaseIndex (game s) <= game_phaseIndex (game (runCallback cb s)))%Z.
Proof.
  intro N. destruct cb; try (split; [reflexivity|cbn; lia]). now elim N.
Qed.

Lemma step_introInv (s : State) (e : Event) :
  introInv s -> introInv (step s e) /\
  (game_phaseIndex (game s) <= game_phaseIndex (game (step s e)))%Z.
Proof.
  intro Inv. destruct e as [d|k r|k|a|id]; cbn [step].
  - (* a frame *)
    destruct (game_running (game s)) eqn:R; [|rewrite update_stopped by exact R; split; [exact Inv|lia]].
    destruct (game_introActive (game s)) eqn:I.
    + rewrite (update_intro_entities d s R I). split; [|cbn; lia].
      intros _. destruct (Inv I) as (P & M & B & G & V & Ix & D & T).
      unfold introQuiet. cbn. now repeat split.
    + split.
      * intro A. rewrite update_running in A by assumption.
        destruct (coreGame_fields _ _ (simulate_core d (startTick d s)))
          as (_ & _ & _ & _ & _ & _ & _ & _ & _ & E).
        rewrite E in A. cbn in A. congruence.
      * pose proof (update_clock d s R) as C. unfold clock in C.
        injection C as _ _ C. rewrite C. lia.
  - (* a key press *)
    destruct (handleKeysDown_cases k r s) as [E|(Gm & B & G & V & Ix & D & T)].
    + rewrite E. destruct (game_introActive (game s)) eqn:I.
      * split.
        -- intro A. apply advanceIntro_quiet; [now apply Inv|exact A].
        -- destruct (Inv I) as (P & _).
           destruct (advanceIntro_phase s I) as [E'|E']; rewrite E'; lia.
      * rewrite (proj2 (proj2 (proj2 (advanceIntro_game s))) I). split; [exact Inv|lia].
    + assert (game_introActive (game (handleKeysDown k r s)) = game_introActive (game s) /\
              game_phaseIndex (game (handleKeysDown k r s)) = game_phaseIndex (game s) /\
              game_inMenu (game (handleKeysDown k r s)) = game_inMenu (game s))
        as (Ea & Ep & Em)
        by (destruct Gm as [Gm|[c Gm]]; rewrite Gm; repeat split).
      split; [|lia].
      intro A. rewrite Ea in A. destruct (Inv A) as (P' & M' & B' & G' & V' & Ix' & D' & T').
      unfold introQuiet. rewrite Ep, Em, B, G, V, Ix, D, T. now repeat split.
  - (* a key release *)
    split; [|cbn; lia]. intro A. destruct (Inv A) as (P & M & B & G & V & Ix & D & T).
    unfold introQuiet. cbn. now repeat split.
  - (* a click *)
    destruct (onMenuAction_cases a s) as [E|[[F E]|(M & F & s' & E & Gs & S & P)]];
      rewrite E.
    + split; [exact Inv|lia].
    + split; [|cbn; lia]. intro A. cbn in A.
      destruct (Inv A) as (_ & M & _). destruct F as (M' & _). congruence.
    + destruct (nextAttack_game s') as (G' & P' & _).
      split; [|rewrite P', P; lia].
      intro A. exfalso.
      destruct (staticGame_fields _ _ G') as (_ & _ & _ & _ & _ & _ & _ & _ & Ia).
      destruct (staticGame_fields _ _ Gs) as (_ & _ & _ & _ & _ & _ & _ & _ & Ib).
      rewrite Ia, Ib in A. cbn in A.
      destruct (Inv A) as (_ & M' & _). congruence.
  - (* a timer *)
    unfold fireTimer. destruct (find _ (timers s)) as [tm|] eqn:Fd; [|split; [exact Inv|lia]].
    set (c := clearTimeout (Some id) s).
    assert (game c = game s) as Gc by reflexivity.
    assert (introInv c) as Invc.
    { intro A. rewrite Gc in A. now apply clearTimeout_quiet, Inv. }
    destruct (runCallback_cases (timer_callback tm) c) as [E|N].
    + rewrite E. destruct (game_introActive (game c)) eqn:I.
      * split.
        -- intro A. apply advanceIntro_quiet; [now apply Invc|exact A].
        -- destruct (Invc I) as (P & _). rewrite <- Gc.
           destruct (advanceIntro_phase c I) as [E'|E']; rewrite E'; lia.
      * rewrite (proj2 (proj2 (proj2 (advanceIntro_game c))) I).
        split; [exact Invc|rewrite Gc; lia].
    + destruct (runCallback_introActive (timer_callback tm) c N) as (Ea & Ep).
      split; [|rewrite <- Gc; exact Ep].
      intro A. rewrite Ea, Gc in A. exfalso.
      destruct (Inv A) as (_ & _ & _ & _ & _ & _ & _ & T).
      apply find_some in Fd. destruct Fd as (Hin & _).
      rewrite Forall_forall in T. now apply N, T.
Qed.

Lemma boot_introInv (w h : Q) : introInv (boot w h).
Proof.
  intros _. unfold introQuiet. cbn. repeat split; try lia.
  constructor; [reflexivity|constructor].
Qed.

Lemma run_introInv (evs : list Event) (s : State) :
  introInv s -> introInv (run evs s) /\
  (game_phaseIndex (game s) <= game_phaseIndex (game (run evs s)))%Z.
Proof.
  unfold run. revert s. induction evs as [|e evs IH]; intros s Inv;
    [split; [exact Inv|apply Z.le_refl]|].
  cbn [fold_left]. destruct (step_introInv s e Inv) as (Inv' & L).
  destruct (IH _ Inv') as (Inv'' & L'). split; [exact Inv''|lia].
Qed.

(** While the intro dialogue is active nothing else happens, whatever the
    player does: no bone or blaster exists, the menu is closed, the phase
    index is 0, hp and corruption are at their initial values, the shown
    line is the one [intro.idx] selects, and only the dialogue's own timer
    is pending. *)
Theorem intro_is_quiet (w h : Q) (evs : list Event) :
  game_introActive (game (run evs (boot w h))) = true ->
  introQuiet (run evs (boot w h)).
Proof. exact (proj1 (run_introInv evs (boot w h) (boot_introInv w h))). Qed.

(** The phase index never goes down: along any run from start-up it is
    at least 0 and every further event leaves it equal or higher. *)
Theorem phase_index_never_decreases (w h : Q) (before after : list Event) :
  (0 <= game_phaseIndex (game (run before (boot w h))))%Z /\
  (game_phaseIndex (game (run before (boot w h))) <=
   game_phaseIndex (game (run (before ++ after) (boot w h))))%Z.
Proof.
  destruct (run_introInv before (boot w h) (boot_introInv w h)) as (Inv & L).
  split; [exact L|].
  unfold run at 2. rewrite fold_left_app. fold (run before (boot w h)).
  fold (run after (run before (boot w h))).
  exact (proj2 (run_introInv after _ Inv)).
Qed.

(** ** The frame driver *)

(** With timestamps that do not go back, the driver never hands [update]
    more than 32ms or less than 0: the subphase timer advances by the
    elapsed time capped at 32, the vitals invariant is kept, and another
    frame is requested exactly when the game is still running. *)
Theorem loop_caps_the_step (now last : Q) (s : State) :
  last <= now ->
  game_running (game s) = true ->
  fst (fst (loop now last s)) = now /\
  snd (loop now last s) = game_running (game (snd (fst (loop now last s)))) /\
  game_subphaseTime (game s) <= game_subphaseTime (game (snd (fst (loop now last s)))) /\
  game_subphaseTime (game (snd (fst (loop now last s)))) <= game_subphaseTime (game s) + 32 /\
  (vitals_ok s -> vitals_ok (snd (fst (loop now last s)))).
Proof.
  intros T R. unfold loop. cbv zeta. cbn [fst snd].
  assert (0 <= Qmin 32 (now - last) /\ Qmin 32 (now - last) <= 32) as (D0 & D32).
  { destruct (Qmin_cases 32 (now - last)) as [[? E]|[? E]]; rewrite E; split; lra. }
  pose proof (update_clock (Qmin 32 (now - last)) s R) as C. unfold clock in C.
  injection C as _ C _. rewrite C.
  repeat apply conj; try reflexivity; try lra.
  now apply update_ok.
Qed.

(** ** The HUD *)

(** Every tick of a running game ends by refreshing the HUD: the hp shown
    is the floor of the soul's hp, or 0 when that is negative, and the
    corruption shown is the floor of the corruption. *)
Theorem hud_is_fresh_after_a_tick (deltaMs : Q) (s : State) :
  game_running (game s) = true ->
  hud_hp (update deltaMs s) = Z.max 0 (Qfloor (player_hp (player (update deltaMs s)))) /\
  hud_kr (update deltaMs s) = Qfloor (player_kr (player (update deltaMs s))) /\
  (0 <= hud_hp (update deltaMs s))%Z.
Proof.
  intro R.
  assert (exists m, update deltaMs s = updateUI m) as (m & E).
  { destruct (game_introActive (game s)) eqn:I.
    - eexists. now apply update_intro_entities.
    - eexists. rewrite update_running by assumption. apply simulate_unfold. }
  rewrite E. unfold updateUI. cbn [hud_hp hud_kr set_hud player].
  repeat apply conj; try reflexivity. apply Z.le_max_l.
Qed.

(** ** When the menu opens *)

Lemma hurt_inMenu (amount addKR : Q) (s : State) :
  game_inMenu (game (hurt amount addKR s)) = game_inMenu (game s).
Proof. unfold hurt. cbv zeta. split_conditions; reflexivity. Qed.

Lemma collideBone_inMenu (b : Bone) (s : State) :
  game_inMenu (game (collideBone b s)) = game_inMenu (game s).
Proof.
  rewrite collideBone_spec. destruct (boneDamages _ _); [apply hurt_inMenu|reflexivity].
Qed.

Lemma collideBlaster_inMenu (g : Blaster) (s : State) :
  game_inMenu (game (collideBlaster g s)) = game_inMenu (game s).
Proof.
  destruct (collideBlaster_spec g s) as [E|E]; rewrite E; [reflexivity|apply hurt_inMenu].
Qed.

Lemma collisions_core (s : State) :
  coreGame (game (collideBlasters (collideBones s))) = coreGame (game s) /\
  game_inMenu (game (collideBlasters (collideBones s))) = game_inMenu (game s).
Proof.
  unfold collideBlasters, collideBones. split.
  - rewrite (for_each_preserves (fun s => coreGame (game s)) collideBlaster
               collideBlaster_core).
    apply (for_each_preserves (fun s => coreGame (game s)) collideBone collideBone_core).
  - rewrite (for_each_preserves (fun s => game_inMenu (game s)) collideBlaster
               collideBlaster_inMenu).
    apply (for_each_preserves (fun s => game_inMenu (game s)) collideBone
             collideBone_inMenu).
Qed.

(** Outside the stall the menu opens by timing alone: a tick that finds it
    closed opens it exactly when the subphase timer, this tick's elapsed
    time included, has passed 1800ms; an open menu stays open. *)
Theorem menu_opens_after_1800ms (deltaMs : Q) (s : State) :
  game_running (game s) = true ->
  game_introActive (game s) = false ->
  game_specialStall (game s) = false ->
  game_inMenu (game (update deltaMs s)) =
  (game_inMenu (game s) || Qgtb (game_subphaseTime (game s) + deltaMs) 1800)%bool.
Proof.
  intros R I S. rewrite update_running by assumption. rewrite simulate_unfold.
  rewrite updateUI_game.
  set (c := collideBlasters (collideBones (beforeCollisions (startTick deltaMs s)))).
  assert (game_specialStall (game c) = false /\
          game_inMenu (game c) = game_inMenu (game (menuTiming (startTick deltaMs s))))
    as (Sc & Mc).
  { destruct (collisions_core (beforeCollisions (startTick deltaMs s))) as (E1 & E2).
    fold c in E1, E2.
    destruct (coreGame_fields _ _ E1) as (_ & _ & _ & _ & _ & _ & _ & E8 & _).
    destruct (coreGame_fields _ _ (beforeCollisions_core (startTick deltaMs s)))
      as (_ & _ & _ & _ & _ & _ & _ & E8' & _).
    split; [rewrite E8, E8'; exact S|].
    rewrite E2. unfold beforeCollisions.
    now rewrite updateBlasters_game, updateBones_game, clampToStage_game, movePlayer_game. }
  assert (offerFinisher (tryAllowStallEscape deltaMs (applyKR deltaMs c)) =
          applyKR deltaMs c) as E.
  { rewrite tryAllowStallEscape_outside_stall by (now rewrite applyKR_game).
    unfold offerFinisher. now rewrite applyKR_game, Sc. }
  rewrite E, applyKR_game, Mc.
  unfold menuTiming.
  change (game_inMenu (game (startTick deltaMs s))) with (game_inMenu (game s)).
  change (game_specialStall (game (startTick deltaMs s)))
    with (game_specialStall (game s)).
  change (game_subphaseTime (game (startTick deltaMs s)))
    with (game_subphaseTime (game s) + deltaMs).
  rewrite S. destruct (game_inMenu (game s)) eqn:M; cbn [negb andb orb].
  - exact M.
  - rewrite andb_true_r. destruct (Qgtb _ 1800); [reflexivity|exact M].
Qed.

(** ** A fatal bone hit *)

(** When the bone loop of a tick hits the soul at least once and leaves
    hp at or below zero, the game has stopped and the end-of-run message
    is on screen when the loop ends. *)
Theorem fatal_bone_hit_is_detected (s : State) :
  (1 <= boneHits s)%nat ->
  player_hp (player (collideBones s)) <= 0 ->
  game_running (game (collideBones s)) = false /\
  dialogue (collideBones s) = "you died. refresh to retry.".
Proof.
  intros N L. unfold collideBones in *. rewrite collide_list in *.
  fold (boneHits s) in *.
  destruct (boneHits s) as [|n]; [lia|].
  rewrite Nat.iter_succ in *. rewrite hurt_hp in L.
  now apply hurt_detects_death.
Qed.

(** ** Idle detection in the stall *)


Lemma idle_fields (s s' : State) :
  idle s' = idle s ->
  keys s' = keys s /\ stallTimer s' = stallTimer s /\ napMode s' = napMode s.
Proof. unfold idle. intro E. injection E as E1 E2 E3. now repeat split. Qed.

Lemma hurt_idle (amount addKR : Q) (s : State) : idle (hurt amount addKR s) = idle s.
Proof. unfold hurt. cbv zeta. split_conditions; reflexivity. Qed.

Lemma collideBone_idle (b : Bone) (s : State) : idle (collideBone b s) = idle s.
Proof.
  rewrite collideBone_spec. destruct (boneDamages _ _); [apply hurt_idle|reflexivity].
Qed.

Lemma collideBlaster_idle (g : Blaster) (s : State) : idle (collideBlaster g s) = idle s.
Proof.
  destruct (collideBlaster_spec g s) as [E|E]; rewrite E; [reflexivity|apply hurt_idle].
Qed.

Lemma applyKR_idle_inputs (delta : Q) (s : State) : idle (applyKR delta s) = idle s.
Proof. unfold applyKR. split_conditions; reflexivity. Qed.

Lemma offerFinisher_idle (s : State) : idle (offerFinisher s) = idle s.
Proof. unfold offerFinisher. split_conditions; reflexivity. Qed.

Lemma menuTiming_idle (s : State) : idle (menuTiming s) = idle s.
Proof. unfold menuTiming. split_conditions; reflexivity. Qed.

Lemma movePlayer_idle (s : State) : idle (movePlayer s) = idle s.
Proof. unfold movePlayer. split_conditions; reflexivity. Qed.

Lemma beforeDetector_idle (deltaMs : Q) (s : State) :
  idle (applyKR deltaMs (collideBlasters (collideBones (beforeCollisions s)))) = idle s.
Proof.
  rewrite applyKR_idle_inputs. unfold collideBlasters, collideBones.
  rewrite (for_each_preserves idle collideBlaster collideBlaster_idle).
  rewrite (for_each_preserves idle collideBone collideBone_idle).
  unfold beforeCollisions.
  transitivity (idle (movePlayer (menuTiming s))); [reflexivity|].
  now rewrite movePlayer_idle, menuTiming_idle.
Qed.

Lemma updateUI_idle (s : State) : idle (updateUI s) = idle s.
Proof. reflexivity. Qed.

Lemma startTick_idle (deltaMs : Q) (s : State) : idle (startTick deltaMs s) = idle s.
Proof. reflexivity. Qed.

Lemma tick_idle_inputs (deltaMs : Q) (s : State) :
  idle (applyKR deltaMs (collideBlasters (collideBones
          (beforeCollisions (startTick deltaMs s))))) = idle s.
Proof. now rewrite beforeDetector_idle, startTick_idle. Qed.

Lemma stallMoving_ext (s s' : State) : keys s' = keys s -> stallMoving s' = stallMoving s.
Proof. intro E. unfold stallMoving, keys_has. now rewrite E. Qed.

Lemma tryAllowStallEscape_idle (delta : Q) (s : State) :
  game_specialStall (game s) = true ->
  keys (tryAllowStallEscape delta s) = keys s /\
  stallTimer (tryAllowStallEscape delta s) =
    (if stallMoving s then 0 else stallTimer s + delta) /\
  napMode (tryAllowStallEscape delta s) =
    (napMode s || Qgtb (if stallMoving s then 0 else stallTimer s + delta) 3000)%bool.
Proof.
  intro S. unfold tryAllowStallEscape. rewrite S. cbn [negb]. cbv zeta.
  destruct (stallMoving s); cbn [negb];
    cbn [napMode stallTimer set_stallTimer];
    destruct (napMode s) eqn:N; cbn [negb andb orb];
    split_conditions; repeat apply conj; try reflexivity; cbn; try assumption;
    now rewrite ?N.
Qed.

(** In the stall, every tick either adds its elapsed time to the idle
    timer or, when a movement key is held, resets it to 0.  Nap mode
    switches on once the timer has passed 3000ms. *)
Theorem idle_timer_in_the_stall (deltaMs : Q) (s : State) :
  game_running (game s) = true ->
  game_introActive (game s) = false ->
  game_specialStall (game s) = true ->
  stallTimer (update deltaMs s) = (if stallMoving s then 0 else stallTimer s + deltaMs) /\
  napMode (update deltaMs s) =
    (napMode s || Qgtb (if stallMoving s then 0 else stallTimer s + deltaMs) 3000)%bool.
Proof.
  intros R I S. rewrite update_running by assumption. rewrite simulate_unfold.
  set (c := applyKR deltaMs (collideBlasters (collideBones
              (beforeCollisions (startTick deltaMs s))))).
  destruct (idle_fields _ _ (tick_idle_inputs deltaMs s)) as (Ek & Et & En).
  fold c in Ek, Et, En.
  assert (game_specialStall (game c) = true) as Sc.
  { unfold c. rewrite applyKR_game.
    destruct (collisions_core (beforeCollisions (startTick deltaMs s))) as (E1 & _).
    destruct (coreGame_fields _ _ E1) as (_ & _ & _ & _ & _ & _ & _ & E8 & _).
    destruct (coreGame_fields _ _ (beforeCollisions_core (startTick deltaMs s)))
      as (_ & _ & _ & _ & _ & _ & _ & E8' & _).
    rewrite E8, E8'. exact S. }
  destruct (tryAllowStallEscape_idle deltaMs c Sc) as (_ & T & N).
  destruct (idle_fields _ _ (offerFinisher_idle (tryAllowStallEscape deltaMs c)))
    as (_ & Ft & Fn).
  destruct (idle_fields _ _ (updateUI_idle (offerFinisher (tryAllowStallEscape deltaMs c))))
    as (_ & Ut & Un).
  rewrite Ut, Un, Ft, Fn, T, N, (stallMoving_ext _ _ Ek), Et, En.
  split; reflexivity.
Qed.

Lemma tryAllowStallEscape_keeps_nap (delta : Q) (s : State) :
  napMode s = true -> napMode (tryAllowStallEscape delta s) = true.
Proof.
  intro N. destruct (game_specialStall (game s)) eqn:S.
  - rewrite (proj2 (proj2 (tryAllowStallEscape_idle delta s S))). now rewrite N.
  - now rewrite tryAllowStallEscape_outside_stall.
Qed.

Lemma advanceIntro_nap (s : State) : napMode (advanceIntro s) = napMode s.
Proof.
  unfold advanceIntro. destruct (negb _); [reflexivity|]. cbv zeta.
  destruct (intro_timer s); destruct (Z.ltb _ _); reflexivity.
Qed.

Lemma nextAttack_nap (s : State) : napMode (nextAttack s) = napMode s.
Proof.
  unfold nextAttack. cbv zeta.
  destruct (game_specialStall _); [reflexivity|].
  lazymatch goal with
  | |- context [match ?p with Z0 => _ | Zpos _ => _ | Zneg _ => _ end] =>
      destruct p as [|[[[q|q|]|[q|q|]|]|[[q|q|]|[q|q|]|]|]|q]
  end; reflexivity.
Qed.

Lemma step_nap (s : State) (e : Event) :
  napMode s = true -> napMode (step s e) = true.
Proof.
  intro N. destruct e as [d|k r|k|a|id]; cbn [step].
  - destruct (game_running (game s)) eqn:R; [|now rewrite update_stopped].
    destruct (game_introActive (game s)) eqn:I.
    + now rewrite (update_intro_entities d s R I).
    + rewrite update_running by assumption. rewrite simulate_unfold.
      rewrite (proj2 (proj2 (idle_fields _ _ (updateUI_idle _)))).
      rewrite (proj2 (proj2 (idle_fields _ _ (offerFinisher_idle _)))).
      apply tryAllowStallEscape_keeps_nap.
      now rewrite (proj2 (proj2 (idle_fields _ _ (tick_idle_inputs d s)))).
  - unfold handleKeysDown. destruct r; [exact N|].
    destruct (_ && _)%bool; [now rewrite advanceIntro_nap|]. cbv zeta.
    unfold keys_add. split_conditions; exact N.
  - exact N.
  - unfold onMenuAction. destruct (negb _); [exact N|].
    destruct (finisherReady _ _); [exact N|].
    destruct (String.eqb a "FIGHT"); [now rewrite nextAttack_nap|].
    destruct (String.eqb a "ACT"); [now rewrite nextAttack_nap|].
    destruct (String.eqb a "ITEM"); [cbv zeta; now rewrite nextAttack_nap|].
    destruct (String.eqb a "MERCY"); [now rewrite nextAttack_nap|].
    exact N.
  - unfold fireTimer. destruct (find _ _) as [tm|]; [|exact N].
    destruct (timer_callback tm); cbn [runCallback]; try exact N.
    now rewrite advanceIntro_nap.
Qed.

(** Nap mode is never switched off: once the idle timer has passed 3000ms
    no frame, key, click or timer clears it, not even the movement that
    resets the idle timer to 0. *)
Theorem nap_mode_is_never_cleared (evs : list Event) (s : State) :
  napMode s = true -> napMode (run evs s) = true.
Proof.
  unfold run. revert s. induction evs as [|e evs IH]; intros s N; [exact N|].
  cbn [fold_left]. apply IH. now apply step_nap.
Qed.

End MoreProofs.

(** * The tick as a whole, and the engine under its driver *)

Section Ticks.
Context {host : MathHost}.

Lemma update_changes_running (deltaMs : Q) (s : State) :
  game_running (game s) = true -> update deltaMs s <> s.
Proof.
  intros R E. pose proof (update_clock deltaMs s R) as C.
  rewrite E in C. unfold clock in C.
  assert (game_frame (game s) = (game_frame (game s) + 1)%Z) as F
    by congruence.
  lia.
Qed.

Lemma collisions_blasters (s : State) :
  blasters (collideBones s) = blasters s.
Proof.
  assert (entities (collideBones s) = entities s) as E.
  { unfold collideBones.
    apply (for_each_preserves entities collideBone collideBone_entities). }
  apply entities_fields in E. apply E.
Qed.

Lemma collideBlasters_none (s : State) :
  blasters s = [] -> collideBlasters s = s.
Proof. intro E. unfold collideBlasters. rewrite E. reflexivity. Qed.

Lemma update_tick (deltaMs : Q) (s : State) :
  game_running (game s) = true ->
  game_introActive (game s) = false ->
  update deltaMs s =
  updateUI (offerFinisher (tryAllowStallEscape deltaMs (applyKR deltaMs
    (collideBlasters (collideBones
       (beforeCollisions (startTick deltaMs s))))))).
Proof.
  intros R I. rewrite (update_running deltaMs s R I). apply simulate_unfold.
Qed.

Lemma update_tick_hits (deltaMs : Q) (s : State) :
  game_running (game s) = true ->
  game_introActive (game s) = false ->
  update deltaMs s =
  updateUI (offerFinisher (tryAllowStallEscape deltaMs (applyKR deltaMs
    (collideBlasters
       (Nat.iter (boneHits (beforeCollisions (startTick deltaMs s)))
          (hurt 1.2 5) (beforeCollisions (startTick deltaMs s))))))).
Proof.
  intros R I. rewrite (update_tick deltaMs s R I).
  generalize (beforeCollisions (startTick deltaMs s)). intro b.
  assert (collideBones b = Nat.iter (boneHits b) (hurt 1.2 5) b) as H
    by (unfold collideBones, boneHits; apply collide_list).
  rewrite H. reflexivity.
Qed.

Lemma one_hit_then_drain (deltaMs : Q) (b : State) :
  boneHits b = 1%nat ->
  player_hp (player b) == 92 -> player_kr (player b) == 0 ->
  player_hp (player (applyKR deltaMs (collideBones b)))
    == 90.8 - Qmin 5 (0.08 * deltaMs) /\
  player_kr (player (applyKR deltaMs (collideBones b)))
    == Qmax 0 (5 - 0.02 * deltaMs).
Proof.
  intros N Hhp Hkr.
  assert (collideBones b = hurt 1.2 5 b) as H.
  { unfold collideBones. rewrite collide_list. fold (boneHits b).
    rewrite N. reflexivity. }
  rewrite H.
  assert (player_hp (player (hurt 1.2 5 b)) == 90.8) as Ahp.
  { rewrite hurt_hp. lra. }
  assert (player_kr (player (hurt 1.2 5 b)) == 5) as Akr.
  { rewrite hurt_kr.
    destruct (Qmin_cases 60 (player_kr (player b) + 5)) as [[? E]|[? E]];
      rewrite E; lra. }
  destruct (applyKR_active deltaMs (hurt 1.2 5 b)) as (Dhp & Dkr & _);
    [lra|].
  rewrite Dhp, Dkr.
  set (h := player_hp (player (hurt 1.2 5 b))) in *.
  set (k := player_kr (player (hurt 1.2 5 b))) in *.
  split.
  + destruct (Qmin_cases k (0.08 * deltaMs)) as [[? E1]|[? E1]];
    destruct (Qmin_cases 5 (0.08 * deltaMs)) as [[? E2]|[? E2]];
      rewrite E1, E2; lra.
  + destruct (Qmax_cases 0 (k - 0.02 * deltaMs)) as [[? E1]|[? E1]];
    destruct (Qmax_cases 0 (5 - 0.02 * deltaMs)) as [[? E2]|[? E2]];
      rewrite E1, E2; lra.
Qed.

Lemma one_hit_tick (deltaMs : Q) (s : State) :
  game_running (game s) = true -> game_introActive (game s) = false ->
  blasters s = [] ->
  boneHits (beforeCollisions (startTick deltaMs s)) = 1%nat ->
  player_hp (player s) == 92 -> player_kr (player s) == 0 ->
  player_hp (player (update deltaMs s)) == 90.8 - Qmin 5 (0.08 * deltaMs) /\
  player_kr (player (update deltaMs s)) == Qmax 0 (5 - 0.02 * deltaMs).
Proof.
  intros R I B N Hhp Hkr. rewrite (update_tick deltaMs s R I).
  rewrite updateUI_player, offerFinisher_player, tryAllowStallEscape_player.
  pose proof (beforeCollisions_vitals (startTick deltaMs s)) as V.
  destruct (beforeCollisions_entities (startTick deltaMs s)) as [E _].
  revert N V E.
  generalize (beforeCollisions (startTick deltaMs s)). intros b N V E.
  unfold vitals in V.
  assert (player_hp (player b) = player_hp (player s)) as Vhp
    by (injection V; intros; assumption).
  assert (player_kr (player b) = player_kr (player s)) as Vkr
    by (injection V; intros; assumption).
  assert (blasters (collideBones b) = []) as B'.
  { rewrite collisions_blasters, E.
    change (blasters (startTick deltaMs s)) with (blasters s).
    rewrite B. reflexivity. }
  rewrite (collideBlasters_none _ B').
  apply one_hit_then_drain; [exact N| |].
  - rewrite Vhp. exact Hhp.
  - rewrite Vkr. exact Hkr.
Qed.

(** C1. Per tick, [update] moves the soul and the entities, then applies
    the fixed hit ([hurt 1.2 5]: hp decreases by 1.2, corruption increases
    by 5 and is clamped at 60) exactly once for every bone that overlaps
    the soul and is Neutral, or Guarded while [moveThisFrame] holds, and
    goes on to the blaster loop, the corruption step, idle detection and
    the HUD; a Guarded overlap with [moveThisFrame] false changes nothing.
    A soul at hp 92 and corruption 0 hit by exactly one such bone in a tick
    with no blaster leaves the bone loop at hp 90.8, corruption 5, and the
    tick with the drain of that corruption taken: hp
    [90.8 - min 5 (0.08 * deltaMs)], corruption [max 0 (5 - 0.02 * deltaMs)]. *)
Theorem C1_bone_damage_resolution :
  (forall deltaMs s,
     game_running (game s) = true -> game_introActive (game s) = false ->
     update deltaMs s =
     updateUI (offerFinisher (tryAllowStallEscape deltaMs (applyKR deltaMs
       (collideBlasters
          (Nat.iter (boneHits (beforeCollisions (startTick deltaMs s)))
             (hurt 1.2 5) (beforeCollisions (startTick deltaMs s)))))))) /\
  (forall s, collideBones s = Nat.iter (boneHits s) (hurt 1.2 5) s) /\
  (forall s,
     player_hp (player (hurt 1.2 5 s)) = player_hp (player s) - 1.2 /\
     player_kr (player (hurt 1.2 5 s)) = Qmin 60 (player_kr (player s) + 5)) /\
  (forall b s, boneTouches (player s) b = true ->
     (bone_color b = "white" -> collideBone b s = hurt 1.2 5 s) /\
     (bone_color b = "blue" ->
        collideBone b s = if player_moveThisFrame (player s)
                          then hurt 1.2 5 s else s)) /\
  (forall s, boneHits s = 1%nat ->
     player_hp (player s) == 92 -> player_kr (player s) == 0 ->
     player_hp (player (collideBones s)) == 90.8 /\
     player_kr (player (collideBones s)) == 5) /\
  (forall deltaMs s,
     game_running (game s) = true -> game_introActive (game s) = false ->
     blasters s = [] ->
     boneHits (beforeCollisions (startTick deltaMs s)) = 1%nat ->
     player_hp (player s) == 92 -> player_kr (player s) == 0 ->
     player_hp (player (update deltaMs s)) == 90.8 - Qmin 5 (0.08 * deltaMs) /\
     player_kr (player (update deltaMs s)) == Qmax 0 (5 - 0.02 * deltaMs)).
Proof.
  split; [|split; [|split; [|split; [|split]]]].
  - exact update_tick_hits.
  - intro s. apply collide_list.
  - intro s. split; [apply hurt_hp | apply hurt_kr].
  - intros b s T. rewrite collideBone_spec. unfold boneDamages. rewrite T.
    split; intro C; rewrite C; reflexivity.
  - intros s N Hhp Hkr. unfold collideBones. rewrite collide_list.
    fold (boneHits s). rewrite N. simpl Nat.iter.
    rewrite hurt_hp, hurt_kr. split; [lra|].
    destruct (Qmin_cases 60 (player_kr (player s) + 5)) as [[? E]|[? E]];
      rewrite E; lra.
  - exact one_hit_tick.
Qed.

(** C9. [update] is a no-op exactly when the game is not running,
    whatever the elapsed time.  On a running game a call with any elapsed
    time, 0 and negative ones included, is a tick: during the intro it
    advances the frame counter and the subphase timer and refreshes the
    HUD; past the intro it runs menu timing, input and physics, clamping,
    the movement and culling of bones and blasters, both collision loops,
    the corruption step, idle detection, the finisher offer and the HUD
    refresh.  The frame counter advances by one, the subphase timer changes
    by the elapsed time and the phase index is unchanged; with elapsed time
    0 the corruption step changes neither hp nor corruption. *)
Theorem C9_update_nonpositive_delta (deltaMs : Q) (s : State) :
  (game_running (game s) = false -> update deltaMs s = s) /\
  (game_running (game s) = true -> update deltaMs s <> s) /\
  (game_running (game s) = true -> game_introActive (game s) = true ->
     update deltaMs s = updateUI (startTick deltaMs s)) /\
  (game_running (game s) = true -> game_introActive (game s) = false ->
     update deltaMs s =
     updateUI (offerFinisher (tryAllowStallEscape deltaMs (applyKR deltaMs
       (collideBlasters (collideBones (updateBlasters (updateBones
          (clampToStage (movePlayer (menuTiming
             (startTick deltaMs s)))))))))))) /\
  (game_running (game s) = true ->
     game_frame (game (update deltaMs s)) = (game_frame (game s) + 1)%Z /\
     game_subphaseTime (game (update deltaMs s)) =
       game_subphaseTime (game s) + deltaMs /\
     game_phaseIndex (game (update deltaMs s)) = game_phaseIndex (game s)) /\
  (player_hp (player (applyKR 0 s)) == player_hp (player s) /\
   player_kr (player (applyKR 0 s)) == player_kr (player s)).
Proof.
  split; [|split; [|split; [|split; [|split]]]].
  - apply update_stopped.
  - apply update_changes_running.
  - apply update_intro_entities.
  - intros R I. rewrite (update_tick deltaMs s R I). reflexivity.
  - intro R. pose proof (update_clock deltaMs s R) as C. unfold clock in C.
    injection C as C1 C2 C3. repeat apply conj; assumption.
  - apply applyKR_zero.
Qed.

(** C10. While the intro is active on a running game, [update] returns
    the state it was given with the frame counter one higher, the subphase
    timer advanced by the elapsed time and the two HUD numbers recomputed
    from the unchanged hp and corruption: the soul (position, velocity, hp,
    corruption and the rest), the bones, the blasters, the phase index, the
    menu flag and every other field of the game object, the held keys, the
    intro line and its timer, the idle timer, nap mode, the dialogue and
    the pending timers are as before.  A HUD that was in step with the soul
    stays as it was. *)
Theorem C10_update_during_intro (deltaMs : Q) (s : State) :
  game_running (game s) = true ->
  game_introActive (game s) = true ->
  update deltaMs s =
    mkState
      (mkGame (game_width (game s)) (game_height (game s))
         (game_frame (game s) + 1)%Z
         (game_running (game s)) (game_phaseIndex (game s))
         (game_subphaseTime (game s) + deltaMs)
         (game_gravity (game s)) (game_soulColor (game s))
         (game_inMenu (game s)) (game_specialStall (game s))
         (game_finished (game s)) (game_introActive (game s)))
      (player s) (keys s) (intro_idx s) (intro_timer s) (bones s)
      (blasters s) (stallTimer s) (napMode s) (dialogue s)
      (Z.max 0 (Qfloor (player_hp (player s))))
      (Qfloor (player_kr (player s)))
      (timers s) (nextTimerId s) /\
  (hud_hp s = Z.max 0 (Qfloor (player_hp (player s))) ->
   hud_kr s = Qfloor (player_kr (player s)) ->
   hud_hp (update deltaMs s) = hud_hp s /\
   hud_kr (update deltaMs s) = hud_kr s).
Proof.
  intros R I. rewrite (update_intro_entities deltaMs s R I).
  split; [reflexivity|].
  intros Hhp Hkr. cbn. split; congruence.
Qed.

(** ** The vitals invariant under the driver *)

Lemma framesInOrderb_ok (ins : list Input) :
  forall p, framesInOrderb p ins = true -> framesInOrder p ins.
Proof.
  induction ins as [|i rest IH]; intros p H; [exact I|].
  cbn in H. apply andb_true_iff in H. destruct H as [H1 H2].
  split; [|apply IH; exact H2].
  destruct i; cbn in *; try exact I.
  apply orb_true_iff in H1. destruct H1 as [L|A]; [left|right; exact A].
  apply Qleb_le. exact L.
Qed.

Lemma drive1_ok (p : Page) (i : Input) :
  frameInOrder p i -> vitals_ok (page_state p) ->
  vitals_ok (page_state (drive1 p i)).
Proof.
  intros F V. destruct i as [now|key rep|key|action|id]; cbn.
  - destruct (page_frame p); [|exact V]. cbn.
    destruct F as [L|A].
    + apply update_ok; [|exact V].
      destruct (Qmin_cases 32 (now - page_last p)) as [[? E]|[? E]];
        rewrite E; lra.
    + destruct (game_running (game (page_state p))) eqn:R.
      * rewrite (update_intro_entities _ _ R A).
        apply (vitals_ok_player (page_state p)); [|exact V].
        rewrite updateUI_player. reflexivity.
      * rewrite (update_stopped _ _ R). exact V.
  - apply (vitals_ok_eq (page_state p)); [|exact V].
    apply handleKeysDown_vitals.
  - apply (vitals_ok_eq (page_state p)); [|exact V].
    apply handleKeysUp_vitals.
  - apply onMenuAction_ok. exact V.
  - apply (vitals_ok_eq (page_state p)); [|exact V].
    apply fireTimer_vitals.
Qed.

Lemma drive_ok (ins : list Input) :
  forall p, framesInOrder p ins -> vitals_ok (page_state p) ->
            vitals_ok (page_state (drive ins p)).
Proof.
  induction ins as [|i rest IH]; intros p F V; [exact V|].
  destruct F as [F1 F2]. cbn [drive fold_left].
  apply (IH (drive1 p i) F2). apply drive1_ok; assumption.
Qed.

(** C2. In every state the page can reach from start-up (frames through
    [loop], key events, menu clicks and timers, in any order and number),
    corruption is within [[0, 60]] and hp is at most hpMax.  [loop] is the
    only caller of [update]; it passes [min 32 (now - last)], and frame
    timestamps do not go back. *)
Theorem C2_vitals_invariant (t0 canvas_width canvas_height : Q)
    (ins : list Input) :
  framesInOrder (page t0 canvas_width canvas_height) ins ->
  vitals_ok (page_state (drive ins (page t0 canvas_width canvas_height))).
Proof.
  intro F. apply drive_ok; [exact F|]. apply boot_ok.
Qed.

End Ticks.

(** ** At the example inputs *)

(** C1 at the tick of [intoTheBone] in which the soul reaches the bone. *)
Lemma C1_first_contact :
  boneHits (beforeCollisions (host := exampleHost)
              (startTick 16 beforeFirstContact)) = 1%nat /\
  player_hp (player beforeFirstContact) == 92 /\
  player_kr (player beforeFirstContact) == 0 /\
  player_hp (player (update (host := exampleHost) 16 beforeFirstContact))
    == 90.8 - Qmin 5 (0.08 * 16) /\
  player_kr (player (update (host := exampleHost) 16 beforeFirstContact))
    == Qmax 0 (5 - 0.02 * 16).
Proof.
  assert (game_running (game beforeFirstContact) = true) as R
    by (vm_compute; reflexivity).
  assert (game_introActive (game beforeFirstContact) = false) as I
    by (vm_compute; reflexivity).
  assert (blasters beforeFirstContact = []) as B by (vm_compute; reflexivity).
  assert (boneHits (beforeCollisions (host := exampleHost)
                      (startTick 16 beforeFirstContact)) = 1%nat) as N
    by (vm_compute; reflexivity).
  assert (player_hp (player beforeFirstContact) == 92) as Hhp
    by (vm_compute; reflexivity).
  assert (player_kr (player beforeFirstContact) == 0) as Hkr
    by (vm_compute; reflexivity).
  split; [exact N|]. split; [exact Hhp|]. split; [exact Hkr|].
  exact (proj2 (proj2 (proj2 (proj2 (proj2
           (@C1_bone_damage_resolution exampleHost)))))
           16 beforeFirstContact R I B N Hhp Hkr).
Defined.

(** C2 along the play sequence that drains hp low. *)
Lemma C2_holds_along_drainedLow :
  framesInOrder (host := exampleHost) (page 0 640 480) drainedLowInputs /\
  vitals_ok (page_state (drive (host := exampleHost) drainedLowInputs
                           (page 0 640 480))).
Proof.
  assert (framesInOrder (host := exampleHost) (page 0 640 480)
            drainedLowInputs) as F.
  { apply framesInOrderb_ok. vm_compute. reflexivity. }
  split; [exact F|].
  exact (@C2_vitals_invariant exampleHost 0 640 480 drainedLowInputs F).
Defined.

(** C9 on the game that was won: stopped, so [update 0] returns it. *)
Lemma C9_at_wonGame :
  game_running (game wonGame) = false /\
  update (host := exampleHost) 0 wonGame = wonGame.
Proof.
  assert (game_running (game wonGame) = false) as R by (vm_compute; reflexivity).
  split; [exact R|].
  exact (proj1 (@C9_update_nonpositive_delta exampleHost 0 wonGame) R).
Defined.

(** C10 on the first frame after start-up. *)
Lemma C10_at_boot :
  game_running (game (boot 640 480)) = true /\
  game_introActive (game (boot 640 480)) = true /\
  hud_hp (update (host := exampleHost) 16 (boot 640 480)) = 92%Z /\
  hud_kr (update (host := exampleHost) 16 (boot 640 480)) = 0%Z /\
  game_frame (game (update (host := exampleHost) 16 (boot 640 480))) = 1%Z.
Proof.
  assert (game_running (game (boot 640 480)) = true) as R
    by (vm_compute; reflexivity).
  assert (game_introActive (game (boot 640 480)) = true) as I
    by (vm_compute; reflexivity).
  destruct (@C10_update_during_intro exampleHost 16 (boot 640 480) R I)
    as [E H].
  assert (hud_hp (boot 640 480) = Z.max 0 (Qfloor (player_hp (player (boot 640 480)))))
    as Hhp by (vm_compute; reflexivity).
  assert (hud_kr (boot 640 480) = Qfloor (player_kr (player (boot 640 480))))
    as Hkr by (vm_compute; reflexivity).
  destruct (H Hhp Hkr) as [H1 H2].
  split; [exact R|]. split; [exact I|].
  split; [rewrite H1; vm_compute; reflexivity|].
  split; [rewrite H2; vm_compute; reflexivity|].
  rewrite E. reflexivity.
Defined.

(** * The further properties at example inputs *)

Lemma stopped_game_at_wonGame :
  game_running (game wonGame) = false /\
  update (host := exampleHost) 16
    (run (host := exampleHost) [EvClick "ACT"; EvUpdate 16] wonGame) =
  run (host := exampleHost) [EvClick "ACT"; EvUpdate 16] wonGame.
Proof.
  assert (game_running (game wonGame) = false) as R by (vm_compute; reflexivity).
  split; [exact R|].
  exact (proj2 (@stopped_game_stays_stopped exampleHost
                  [EvClick "ACT"; EvUpdate 16] 16 wonGame R)).
Defined.

Lemma finishing_strike_at_stallMenu :
  game_inMenu (game stallMenu) = true /\
  finisherReady "FIGHT" stallMenu = true /\
  onMenuAction (host := exampleHost) "ACT" (onMenuAction (host := exampleHost) "FIGHT" stallMenu)
    = onMenuAction (host := exampleHost) "FIGHT" stallMenu.
Proof.
  assert (game_inMenu (game stallMenu) = true) as M by (vm_compute; reflexivity).
  assert (finisherReady "FIGHT" stallMenu = true) as F by (vm_compute; reflexivity).
  split; [exact M|]. split; [exact F|].
  exact (proj1 (proj2 (proj2 (@finishing_strike_is_idempotent exampleHost
                                "ACT" 16 stallMenu M F)))).
Defined.



Lemma soul_on_stage_after_cold_open :
  game_running (game (runExample skipIntro)) = true /\
  game_introActive (game (runExample skipIntro)) = false /\
  20 <= player_x (player (update (host := exampleHost) 16 (runExample skipIntro))).
Proof.
  assert (game_running (game (runExample skipIntro)) = true) as R
    by (vm_compute; reflexivity).
  assert (game_introActive (game (runExample skipIntro)) = false) as I
    by (vm_compute; reflexivity).
  assert (40 + player_width (player (runExample skipIntro))
            <= game_width (game (runExample skipIntro))) as W
    by (apply Qleb_le; vm_compute; reflexivity).
  assert (40 + player_height (player (runExample skipIntro))
            <= game_height (game (runExample skipIntro))) as Hh
    by (apply Qleb_le; vm_compute; reflexivity).
  split; [exact R|]. split; [exact I|].
  exact (proj1 (@soul_stays_on_stage exampleHost 16 (runExample skipIntro) R I W Hh)).
Defined.

Lemma hp_does_not_rise_in_the_bone :
  0 <= player_kr (player (runExample intoTheBone)) /\
  player_hp (player (step (host := exampleHost) (runExample intoTheBone)
                       (EvUpdate 16)))
    <= player_hp (player (runExample intoTheBone)).
Proof.
  assert (0 <= player_kr (player (runExample intoTheBone))) as K
    by (apply Qleb_le; vm_compute; reflexivity).
  assert (forwardInTime (EvUpdate 16)) as F by (cbn; lra).
  assert (EvUpdate 16 <> EvClick "ITEM") as N by discriminate.
  split; [exact K|].
  exact (proj1 (@hp_rises_only_at_item exampleHost (runExample intoTheBone)
                  (EvUpdate 16) F K) N).
Defined.

Lemma arrow_left_pressed_and_released :
  game_introActive (game (runExample skipIntro)) = false /\
  keys_has "arrowleft" (handleKeysDown "ArrowLeft" false (runExample skipIntro)) = true /\
  keys_has "arrowleft"
    (handleKeysUp "ArrowLeft" (handleKeysDown "ArrowLeft" false (runExample skipIntro)))
    = false.
Proof.
  assert (game_introActive (game (runExample skipIntro)) = false) as I
    by (vm_compute; reflexivity).
  split; [exact I|].
  destruct (held_keys_round_trip "ArrowLeft" "a" (runExample skipIntro) I)
    as (E1 & E2 & _).
  split; [exact E1 | exact E2].
Defined.

Lemma expired_blaster_is_dropped :
  game_running (game (facingBlaster 1)) = true /\
  game_introActive (game (facingBlaster 1)) = false /\
  blasters (update (host := exampleHost) 16 (facingBlaster 1)) =
    filter (fun g => negb (blaster_life g <=? 0)%Z)
      (map ageBlaster (blasters (facingBlaster 1))).
Proof.
  assert (game_running (game (facingBlaster 1)) = true) as R by reflexivity.
  assert (game_introActive (game (facingBlaster 1)) = false) as I by reflexivity.
  split; [exact R|]. split; [exact I|].
  exact (proj1 (@tick_only_advances_and_culls exampleHost 16 (facingBlaster 1) R I)).
Defined.

Lemma intro_quiet_after_one_line :
  game_introActive
    (game (run (host := exampleHost) [EvKeyDown "z" false] (boot 640 480))) = true /\
  introQuiet (run (host := exampleHost) [EvKeyDown "z" false] (boot 640 480)).
Proof.
  assert (game_introActive
            (game (run (host := exampleHost) [EvKeyDown "z" false]
                     (boot 640 480))) = true) as I
    by (vm_compute; reflexivity).
  split; [exact I|].
  exact (@intro_is_quiet exampleHost 640 480 [EvKeyDown "z" false] I).
Defined.

Lemma loop_after_a_16ms_frame :
  1000 <= 1016 /\
  game_running (game (runExample skipIntro)) = true /\
  fst (fst (loop (host := exampleHost) 1016 1000 (runExample skipIntro))) = 1016.
Proof.
  assert (1000 <= 1016) as T by lra.
  assert (game_running (game (runExample skipIntro)) = true) as R
    by (vm_compute; reflexivity).
  split; [exact T|]. split; [exact R|].
  exact (proj1 (@loop_caps_the_step exampleHost 1016 1000 (runExample skipIntro) T R)).
Defined.

Lemma hud_shows_zero_below_zero :
  game_running (game (runExample drainedLow)) = true /\
  hud_hp (update (host := exampleHost) 16 (runExample drainedLow)) =
    Z.max 0 (Qfloor (player_hp (player (update (host := exampleHost) 16
                                          (runExample drainedLow))))) /\
  hud_hp (update (host := exampleHost) 16 (runExample drainedLow)) = 0%Z.
Proof.
  assert (game_running (game (runExample drainedLow)) = true) as R
    by (vm_compute; reflexivity).
  split; [exact R|]. split.
  - exact (proj1 (@hud_is_fresh_after_a_tick exampleHost 16 (runExample drainedLow) R)).
  - vm_compute. reflexivity.
Defined.

Lemma menu_opens_on_a_long_tick :
  game_running (game (runExample skipIntro)) = true /\
  game_introActive (game (runExample skipIntro)) = false /\
  game_specialStall (game (runExample skipIntro)) = false /\
  game_inMenu (game (update (host := exampleHost) 2000 (runExample skipIntro))) =
    (game_inMenu (game (runExample skipIntro)) ||
     Qgtb (game_subphaseTime (game (runExample skipIntro)) + 2000) 1800)%bool.
Proof.
  assert (game_running (game (runExample skipIntro)) = true) as R
    by (vm_compute; reflexivity).
  assert (game_introActive (game (runExample skipIntro)) = false) as I
    by (vm_compute; reflexivity).
  assert (game_specialStall (game (runExample skipIntro)) = false) as S
    by (vm_compute; reflexivity).
  split; [exact R|]. split; [exact I|]. split; [exact S|].
  exact (@menu_opens_after_1800ms exampleHost 2000 (runExample skipIntro) R I S).
Defined.

Lemma fatal_hit_at_lastHit :
  (1 <= boneHits lastHit)%nat /\
  player_hp (player (collideBones lastHit)) <= 0 /\
  game_running (game (collideBones lastHit)) = false.
Proof.
  assert (1 <= boneHits lastHit)%nat as N by (vm_compute; apply le_n).
  assert (player_hp (player (collideBones lastHit)) <= 0) as L
    by (apply Qleb_le; vm_compute; reflexivity).
  split; [exact N|]. split; [exact L|].
  exact (proj1 (fatal_bone_hit_is_detected lastHit N L)).
Defined.

Lemma idle_timer_at_stallStart :
  game_running (game stallStart) = true /\
  game_introActive (game stallStart) = false /\
  game_specialStall (game stallStart) = true /\
  stallTimer (update (host := exampleHost) 32 stallStart) =
    (if stallMoving stallStart then 0 else stallTimer stallStart + 32).
Proof.
  assert (game_running (game stallStart) = true) as R by reflexivity.
  assert (game_introActive (game stallStart) = false) as I by reflexivity.
  assert (game_specialStall (game stallStart) = true) as S by reflexivity.
  split; [exact R|]. split; [exact I|]. split; [exact S|].
  exact (proj1 (@idle_timer_in_the_stall exampleHost 32 stallStart R I S)).
Defined.

Lemma nap_survives_movement :
  napMode stallMenu = true /\
  napMode (run (host := exampleHost)
             [EvKeyDown "ArrowLeft" false; EvUpdate 32] stallMenu) = true /\
  stallTimer (run (host := exampleHost)
                [EvKeyDown "ArrowLeft" false; EvUpdate 32] stallMenu) == 0.
Proof.
  assert (napMode stallMenu = true) as N by (vm_compute; reflexivity).
  split; [exact N|]. split.
  - exact (@nap_mode_is_never_cleared exampleHost
             [EvKeyDown "ArrowLeft" false; EvUpdate 32] stallMenu N).
  - vm_compute. reflexivity.
Defined.
